(** * Button: debounce and press-classification state machine

    A shallow embedding of [Button/Button.c] and [Button/Button.h].
    The [Button] struct becomes a record, every [uint16_t] field is a [Z]
    with the 16-bit wrap-around written out, the one-bit flag fields are
    booleans, and each C function that mutates [*self] becomes a function
    from the old struct to the new one. *)

From Stdlib Require Import ZArith List Bool Lia.
Import ListNotations.
Local Open Scope Z_scope.

(** ** Machine integers *)

Definition UINT16_MODULUS : Z := 65536.

(** Conversion to [uint16_t] on assignment. *)
Definition to_u16 (x : Z) : Z := x mod UINT16_MODULUS.

(** The values a [uint16_t] object can hold. *)
Definition u16 (x : Z) : Prop := 0 <= x < UINT16_MODULUS.

(** ** Data model (Button.h) *)

Inductive ButtonState : Type :=
| BUTTON_UP
| DEBOUNCE_PRESS
| BUTTON_DOWN
| DEBOUNCE_RELEASE.

Inductive ButtonType : Type :=
| SHORT_PRESS_TYPE
| LONG_PRESS_TYPE.

(** The anonymous bit-field struct inside the [flags] union. *)
Record ButtonFlags : Type := mkFlags {
  buttonDownEvent : bool;
  shortPress : bool;
  longPress : bool;
  buttonUpEvent : bool
}.

Record Button : Type := mkButton {
  pressDebouncePeriod : Z;
  releaseDebouncePeriod : Z;
  longPressPeriod : Z;
  longPressCounter : Z;
  debounceCounter : Z;
  buttonState : ButtonState;
  buttonType : ButtonType;
  flags : ButtonFlags
}.

(** Every [uint16_t] field holds a 16-bit value. *)
Definition wf (self : Button) : Prop :=
  u16 (pressDebouncePeriod self) /\
  u16 (releaseDebouncePeriod self) /\
  u16 (longPressPeriod self) /\
  u16 (longPressCounter self) /\
  u16 (debounceCounter self).

(** *** Field assignments [self->f = v] *)

Definition set_pressDebouncePeriod (self : Button) (v : Z) : Button :=
  mkButton v (releaseDebouncePeriod self) (longPressPeriod self)
           (longPressCounter self) (debounceCounter self)
           (buttonState self) (buttonType self) (flags self).

Definition set_releaseDebouncePeriod (self : Button) (v : Z) : Button :=
  mkButton (pressDebouncePeriod self) v (longPressPeriod self)
           (longPressCounter self) (debounceCounter self)
           (buttonState self) (buttonType self) (flags self).

Definition set_longPressPeriod (self : Button) (v : Z) : Button :=
  mkButton (pressDebouncePeriod self) (releaseDebouncePeriod self) v
           (longPressCounter self) (debounceCounter self)
           (buttonState self) (buttonType self) (flags self).

Definition set_longPressCounter (self : Button) (v : Z) : Button :=
  mkButton (pressDebouncePeriod self) (releaseDebouncePeriod self)
           (longPressPeriod self) v (debounceCounter self)
           (buttonState self) (buttonType self) (flags self).

Definition set_debounceCounter (self : Button) (v : Z) : Button :=
  mkButton (pressDebouncePeriod self) (releaseDebouncePeriod self)
           (longPressPeriod self) (longPressCounter self) v
           (buttonState self) (buttonType self) (flags self).

Definition set_buttonState (self : Button) (v : ButtonState) : Button :=
  mkButton (pressDebouncePeriod self) (releaseDebouncePeriod self)
           (longPressPeriod self) (longPressCounter self)
           (debounceCounter self) v (buttonType self) (flags self).

Definition set_buttonType (self : Button) (v : ButtonType) : Button :=
  mkButton (pressDebouncePeriod self) (releaseDebouncePeriod self)
           (longPressPeriod self) (longPressCounter self)
           (debounceCounter self) (buttonState self) v (flags self).

Definition set_flags (self : Button) (v : ButtonFlags) : Button :=
  mkButton (pressDebouncePeriod self) (releaseDebouncePeriod self)
           (longPressPeriod self) (longPressCounter self)
           (debounceCounter self) (buttonState self) (buttonType self) v.

Definition set_buttonDownEvent (self : Button) (v : bool) : Button :=
  set_flags self (mkFlags v (shortPress (flags self))
                          (longPress (flags self))
                          (buttonUpEvent (flags self))).

Definition set_shortPress (self : Button) (v : bool) : Button :=
  set_flags self (mkFlags (buttonDownEvent (flags self)) v
                          (longPress (flags self))
                          (buttonUpEvent (flags self))).

Definition set_longPress (self : Button) (v : bool) : Button :=
  set_flags self (mkFlags (buttonDownEvent (flags self))
                          (shortPress (flags self)) v
                          (buttonUpEvent (flags self))).

Definition set_buttonUpEvent (self : Button) (v : bool) : Button :=
  set_flags self (mkFlags (buttonDownEvent (flags self))
                          (shortPress (flags self))
                          (longPress (flags self)) v).

Definition ButtonType_eqb (a b : ButtonType) : bool :=
  match a, b with
  | SHORT_PRESS_TYPE, SHORT_PRESS_TYPE => true
  | LONG_PRESS_TYPE, LONG_PRESS_TYPE => true
  | _, _ => false
  end.

(** ** Initialisation (Button.c, lines 27-49) *)

(** The three periods are written only when [tickMs != 0]; the type is
    then derived from whatever [longPressPeriod] holds; the counters and
    the flags are not touched. *)
Definition Button_InitWithLongPressMs (self : Button)
    (pressDebounceMs releaseDebounceMs longPressMs tickMs : Z) : Button :=
  let self :=
    if negb (tickMs =? 0) then
      let self := set_pressDebouncePeriod self
                    (to_u16 (Z.quot pressDebounceMs tickMs)) in
      let self := set_releaseDebouncePeriod self
                    (to_u16 (Z.quot releaseDebounceMs tickMs)) in
      set_longPressPeriod self (to_u16 (Z.quot longPressMs tickMs))
    else self in
  let self :=
    if longPressPeriod self =? 0
    then set_buttonType self SHORT_PRESS_TYPE
    else set_buttonType self LONG_PRESS_TYPE in
  set_buttonState self BUTTON_UP.

Definition Button_InitMs (self : Button)
    (pressDebounceMs releaseDebounceMs tickMs : Z) : Button :=
  Button_InitWithLongPressMs self pressDebounceMs releaseDebounceMs 0 tickMs.

(** ** One tick (Button.c, lines 53-181) *)

(** The [switch] on [buttonState], one branch per enumerator; its
    [default] branch is empty and no enumerator reaches it.  Each
    [let self := ...] is one assignment (or one conditional block of
    assignments) to [*self], in the order of the source, so that a later
    test reads the fields as the earlier statements left them. *)

Definition Button_Tick (self : Button) (isPressed : bool) : Button :=
  match buttonState self with
  | BUTTON_UP =>
      if isPressed then
        if pressDebouncePeriod self =? 0 then
          let self :=
            if ButtonType_eqb (buttonType self) SHORT_PRESS_TYPE
            then set_shortPress self true
            else self in
          let self := set_buttonDownEvent self true in
          let self := set_buttonState self BUTTON_DOWN in
          set_longPressCounter self 0
        else
          let self := set_buttonState self DEBOUNCE_PRESS in
          set_debounceCounter self 0
      else self
  | DEBOUNCE_PRESS =>
      let self := set_debounceCounter self
                    (to_u16 (debounceCounter self + 1)) in
      if debounceCounter self =? pressDebouncePeriod self then
        if isPressed then
          let self :=
            if ButtonType_eqb (buttonType self) SHORT_PRESS_TYPE
            then set_shortPress self true
            else self in
          let self := set_buttonDownEvent self true in
          let self := set_buttonState self BUTTON_DOWN in
          set_longPressCounter self 0
        else
          set_buttonState self BUTTON_UP
      else self
  | BUTTON_DOWN =>
      let self :=
        if isPressed && ButtonType_eqb (buttonType self) LONG_PRESS_TYPE then
          if longPressCounter self <? longPressPeriod self then
            let self := set_longPressCounter self
                          (to_u16 (longPressCounter self + 1)) in
            if longPressCounter self =? longPressPeriod self
            then set_longPress self true
            else self
          else self
        else self in
      if negb isPressed then
        if releaseDebouncePeriod self =? 0 then
          let self :=
            if ButtonType_eqb (buttonType self) LONG_PRESS_TYPE then
              if longPressCounter self <? longPressPeriod self
              then set_shortPress self true
              else self
            else self in
          let self := set_buttonUpEvent self true in
          set_buttonState self BUTTON_UP
        else
          let self := set_buttonState self DEBOUNCE_RELEASE in
          set_debounceCounter self 0
      else self
  | DEBOUNCE_RELEASE =>
      let self := set_debounceCounter self
                    (to_u16 (debounceCounter self + 1)) in
      if debounceCounter self =? releaseDebouncePeriod self then
        if negb isPressed then
          let self :=
            if ButtonType_eqb (buttonType self) LONG_PRESS_TYPE then
              if longPressCounter self <? longPressPeriod self
              then set_shortPress self true
              else self
            else self in
          let self := set_buttonUpEvent self true in
          set_buttonState self BUTTON_UP
        else
          set_buttonState self BUTTON_UP
      else self
  end.

(** ** Flag accessors (Button.c, lines 185-249) *)

Definition Button_GetShortPress (self : Button) : bool :=
  if shortPress (flags self) then true else false.

Definition Button_GetLongPress (self : Button) : bool :=
  if longPress (flags self) then true else false.

Definition Button_ClearShortPressFlag (self : Button) : Button :=
  set_shortPress self false.

Definition Button_ClearLongPressFlag (self : Button) : Button :=
  set_longPress self false.

Definition Button_GetButtonDownEvent (self : Button) : bool :=
  if buttonDownEvent (flags self) then true else false.

Definition Button_GetButtonUpEvent (self : Button) : bool :=
  if buttonUpEvent (flags self) then true else false.

Definition Button_ClearButtonDownFlag (self : Button) : Button :=
  set_buttonDownEvent self false.

Definition Button_ClearButtonUpFlag (self : Button) : Button :=
  set_buttonUpEvent self false.

(** ** Driving the machine *)

(** One call of [Button_Tick] per sample, in order. *)
Definition Button_Run (self : Button) (samples : list bool) : Button :=
  fold_left Button_Tick samples self.

(** The operations through which a caller mutates an initialised
    instance: the tick and the four clearing accessors. *)
Inductive Op : Type :=
| OpTick (isPressed : bool)
| OpClearShortPress
| OpClearLongPress
| OpClearButtonDown
| OpClearButtonUp.

Definition apply_op (self : Button) (o : Op) : Button :=
  match o with
  | OpTick isPressed => Button_Tick self isPressed
  | OpClearShortPress => Button_ClearShortPressFlag self
  | OpClearLongPress => Button_ClearLongPressFlag self
  | OpClearButtonDown => Button_ClearButtonDownFlag self
  | OpClearButtonUp => Button_ClearButtonUpFlag self
  end.

Definition exec (self : Button) (ops : list Op) : Button :=
  fold_left apply_op ops self.

(** The states an instance can be in after an initialisation call on any
    storage, followed by any number of ticks and clears.  [Button_InitMs]
    is the case [longPressMs = 0]. *)
Definition Reachable (s : Button) : Prop :=
  exists s0 pressDebounceMs releaseDebounceMs longPressMs tickMs ops,
    wf s0 /\ u16 pressDebounceMs /\ u16 releaseDebounceMs /\
    u16 longPressMs /\ u16 tickMs /\
    s = exec (Button_InitWithLongPressMs s0 pressDebounceMs
                releaseDebounceMs longPressMs tickMs) ops.

(** *** Observing which flags a tick raises

    The flags are sticky, so a tick that executes [flags.f = 1] is
    observed by clearing [f] first and reading it afterwards. *)

Definition raisesButtonDown (self : Button) (isPressed : bool) : bool :=
  Button_GetButtonDownEvent
    (Button_Tick (Button_ClearButtonDownFlag self) isPressed).

Definition raisesButtonUp (self : Button) (isPressed : bool) : bool :=
  Button_GetButtonUpEvent
    (Button_Tick (Button_ClearButtonUpFlag self) isPressed).

Definition raisesShortPress (self : Button) (isPressed : bool) : bool :=
  Button_GetShortPress
    (Button_Tick (Button_ClearShortPressFlag self) isPressed).

Definition raisesLongPress (self : Button) (isPressed : bool) : bool :=
  Button_GetLongPress
    (Button_Tick (Button_ClearLongPressFlag self) isPressed).

(** The flags raised at each tick of a run, in order. *)
Fixpoint raised (ev : Button -> bool -> bool) (self : Button)
    (samples : list bool) : list bool :=
  match samples with
  | [] => []
  | isPressed :: rest =>
      ev self isPressed :: raised ev (Button_Tick self isPressed) rest
  end.

(** Storage with every byte zero, as for an object of static duration. *)
Definition zeroed : Button :=
  mkButton 0 0 0 0 0 BUTTON_UP SHORT_PRESS_TYPE
           (mkFlags false false false false).

(** *** The four flags, uniformly *)

Inductive Flag : Type :=
| FButtonDown
| FShortPress
| FLongPress
| FButtonUp.

(** The query accessor of a flag. *)
Definition Button_Get (f : Flag) : Button -> bool :=
  match f with
  | FButtonDown => Button_GetButtonDownEvent
  | FShortPress => Button_GetShortPress
  | FLongPress => Button_GetLongPress
  | FButtonUp => Button_GetButtonUpEvent
  end.

(** The clearing accessor of a flag, as an operation. *)
Definition clear_of (f : Flag) : Op :=
  match f with
  | FButtonDown => OpClearButtonDown
  | FShortPress => OpClearShortPress
  | FLongPress => OpClearLongPress
  | FButtonUp => OpClearButtonUp
  end.

(** A debounced press is accepted by a tick: the machine enters the
    held-down state and the button-down event is raised. *)
Definition press_accepted (self : Button) (isPressed : bool) : Prop :=
  buttonState (Button_Tick self isPressed) = BUTTON_DOWN /\
  raisesButtonDown self isPressed = true.

(** A debounced release is accepted by a tick: the machine enters the
    released state and the button-up event is raised. *)
Definition release_accepted (self : Button) (isPressed : bool) : Prop :=
  buttonState (Button_Tick self isPressed) = BUTTON_UP /\
  raisesButtonUp self isPressed = true.

(** No flag is raised at any tick of a run. *)
Definition quiet (s : Button) (samples : list bool) : Prop :=
  Forall (eq false) (raised raisesButtonDown s samples) /\
  Forall (eq false) (raised raisesButtonUp s samples) /\
  Forall (eq false) (raised raisesShortPress s samples) /\
  Forall (eq false) (raised raisesLongPress s samples).

(** The bounds the machine keeps on its counters: the debounce counter is
    below the period of the debounce state it counts in, and the long-press
    counter is at most the long-press period from the entry into the
    held-down state until the release is settled. *)
Definition counters_ok (s : Button) : Prop :=
  (buttonState s = DEBOUNCE_PRESS ->
   debounceCounter s < pressDebouncePeriod s) /\
  (buttonState s = DEBOUNCE_RELEASE ->
   debounceCounter s < releaseDebouncePeriod s) /\
  (buttonState s = BUTTON_DOWN \/ buttonState s = DEBOUNCE_RELEASE ->
   longPressCounter s <= longPressPeriod s).

(** * Timer: free-running countdown timer (Timer.h, Timer.c) *)

Module Timer.

(** The address of a callback function; a null pointer is [None]. *)
Definition TimerCallbackFunc : Type := option nat.

Record TimerFlags : Type := mkFlags {
  start : bool;
  active : bool;
  expired : bool
}.

Record Timer : Type := mkTimer {
  period : Z;
  count : Z;
  timerCallbackFunc : TimerCallbackFunc;
  flags : TimerFlags
}.

Definition wf (self : Timer) : Prop := u16 (period self) /\ u16 (count self).

Definition set_period (self : Timer) (v : Z) : Timer :=
  mkTimer v (count self) (timerCallbackFunc self) (flags self).

Definition set_count (self : Timer) (v : Z) : Timer :=
  mkTimer (period self) v (timerCallbackFunc self) (flags self).

Definition set_timerCallbackFunc (self : Timer) (v : TimerCallbackFunc)
    : Timer :=
  mkTimer (period self) (count self) v (flags self).

Definition set_start (self : Timer) (v : bool) : Timer :=
  mkTimer (period self) (count self) (timerCallbackFunc self)
          (mkFlags v (active (flags self)) (expired (flags self))).

Definition set_active (self : Timer) (v : bool) : Timer :=
  mkTimer (period self) (count self) (timerCallbackFunc self)
          (mkFlags (start (flags self)) v (expired (flags self))).

Definition set_expired (self : Timer) (v : bool) : Timer :=
  mkTimer (period self) (count self) (timerCallbackFunc self)
          (mkFlags (start (flags self)) (active (flags self)) v).

(** Timer.c, lines 44-48. *)
Definition Timer_InitMs (self : Timer) (periodMs tickMs : Z) : Timer :=
  if negb (tickMs =? 0)
  then set_period self (to_u16 (Z.quot periodMs tickMs))
  else self.

(** Timer.c, lines 52-58. *)
Definition Timer_Start (self : Timer) : Timer :=
  if negb (period self =? 0) then set_start self true else self.

(** Timer.c, lines 62-66. *)
Definition Timer_Stop (self : Timer) : Timer :=
  let self := set_start self false in
  set_active self false.

(** Timer.c, lines 70-96.  The second component is the callback the tick
    calls, if it calls one; the call is the last thing the tick does, and
    its argument is the struct in the first component. *)
Definition Timer_Tick (self : Timer) : Timer * option nat :=
  let self :=
    if start (flags self) && negb (period self =? 0) then
      let self := set_start self false in
      let self := set_count self (period self) in
      set_active self true
    else self in
  if active (flags self) then
    let self := set_count self (to_u16 (count self - 1)) in
    if count self =? 0 then
      let self := set_active self false in
      let self := set_expired self true in
      match timerCallbackFunc self with
      | Some f => (self, Some f)
      | None => (self, None)
      end
    else (self, None)
  else (self, None).

(** Timer.c, lines 100-144. *)
Definition Timer_GetCount (self : Timer) : Z := count self.

Definition Timer_GetPeriod (self : Timer) : Z := period self.

Definition Timer_IsRunning (self : Timer) : bool :=
  if active (flags self) then true else false.

Definition Timer_IsFinished (self : Timer) : bool :=
  if expired (flags self) then true else false.

Definition Timer_ClearFlag (self : Timer) : Timer :=
  set_expired self false.

Definition Timer_SetFinishedCallback (self : Timer)
    (Function : TimerCallbackFunc) : Timer :=
  set_timerCallbackFunc self Function.

(** [n] ticks in a row, with the callbacks they call, in order.  The
    callbacks are taken to leave the timer struct as they find it. *)
Fixpoint Timer_Run (self : Timer) (n : nat) : Timer * list nat :=
  match n with
  | O => (self, [])
  | S n =>
      let (self, called) := Timer_Tick self in
      let (self', calls) := Timer_Run self n in
      (self', match called with Some f => f :: calls | None => calls end)
  end.

(** What a caller can do to a timer. *)
Inductive Op : Type :=
| OpInitMs (periodMs tickMs : Z)
| OpStart
| OpStop
| OpTick
| OpClearFlag
| OpSetFinishedCallback (Function : TimerCallbackFunc).

Definition apply_op (self : Timer) (o : Op) : Timer :=
  match o with
  | OpInitMs periodMs tickMs => Timer_InitMs self periodMs tickMs
  | OpStart => Timer_Start self
  | OpStop => Timer_Stop self
  | OpTick => fst (Timer_Tick self)
  | OpClearFlag => Timer_ClearFlag self
  | OpSetFinishedCallback f => Timer_SetFinishedCallback self f
  end.

Definition exec (self : Timer) (ops : list Op) : Timer :=
  fold_left apply_op ops self.

(** Storage with every byte zero. *)
Definition zeroed : Timer := mkTimer 0 0 None (mkFlags false false false).

End Timer.

(** * Buffer: 8-bit ring buffer (Buffer.h, Buffer.c) *)

Module Buffer.

Definition UINT8_MODULUS : Z := 256.

(** Conversion to [uint8_t] on assignment. *)
Definition to_u8 (x : Z) : Z := x mod UINT8_MODULUS.

Definition u8 (x : Z) : Prop := 0 <= x < UINT8_MODULUS.

(** [#define CircularIncrement(i, size) i == (size - 1) ? 0 : i + 1]
    (Buffer.c, line 23).  The operands are promoted to [int], so nothing
    wraps here.  The macro is an expression without side effects: it
    changes [i] only where its value is assigned. *)
Definition CircularIncrement (i size : Z) : Z :=
  if i =? size - 1 then 0 else i + 1.

(** The [private] struct; [buffer] stands for the array that the pointer
    of that name points to. *)
Record Private : Type := mkPrivate {
  buffer : list Z;
  size : Z;
  head : Z;
  tail : Z
}.

Record Buffer : Type := mkBuffer {
  count : Z;
  overflow : bool;
  enableOverwrite : bool;
  private : Private
}.

Definition set_count (self : Buffer) (v : Z) : Buffer :=
  mkBuffer v (overflow self) (enableOverwrite self) (private self).

Definition set_overflow (self : Buffer) (v : bool) : Buffer :=
  mkBuffer (count self) v (enableOverwrite self) (private self).

Definition set_enableOverwrite (self : Buffer) (v : bool) : Buffer :=
  mkBuffer (count self) (overflow self) v (private self).

Definition set_buffer (self : Buffer) (v : list Z) : Buffer :=
  mkBuffer (count self) (overflow self) (enableOverwrite self)
           (mkPrivate v (size (private self)) (head (private self))
                      (tail (private self))).

Definition set_size (self : Buffer) (v : Z) : Buffer :=
  mkBuffer (count self) (overflow self) (enableOverwrite self)
           (mkPrivate (buffer (private self)) v (head (private self))
                      (tail (private self))).

Definition set_head (self : Buffer) (v : Z) : Buffer :=
  mkBuffer (count self) (overflow self) (enableOverwrite self)
           (mkPrivate (buffer (private self)) (size (private self)) v
                      (tail (private self))).

(** *** Array accesses; an access outside the array has no defined result *)

Fixpoint list_store (a : list Z) (i : nat) (v : Z) : option (list Z) :=
  match a, i with
  | [], _ => None
  | _ :: rest, O => Some (v :: rest)
  | x :: rest, S i =>
      match list_store rest i v with
      | Some rest' => Some (x :: rest')
      | None => None
      end
  end.

(** [a[i] = v] *)
Definition store (a : list Z) (i : Z) (v : Z) : option (list Z) :=
  if i <? 0 then None else list_store a (Z.to_nat i) v.

(** [a[i]] *)
Definition load (a : list Z) (i : Z) : option Z :=
  if i <? 0 then None else nth_error a (Z.to_nat i).

(** Buffer.c, lines 76-82: the array, its size, the overwrite switch and
    the count are written; [head], [tail] and [overflow] are not. *)
Definition Buffer_InitWithOverwrite (self : Buffer) (arrayIn : list Z)
    (arrayInSize : Z) (overwrite : bool) : Buffer :=
  let self := set_buffer self arrayIn in
  let self := set_size self arrayInSize in
  let self := set_enableOverwrite self overwrite in
  set_count self 0.

(** Buffer.c, lines 47-50. *)
Definition Buffer_Init (self : Buffer) (arrayIn : list Z) (arrayInSize : Z)
    : Buffer :=
  Buffer_InitWithOverwrite self arrayIn arrayInSize false.

(** Buffer.c, lines 93-128.  Line 109 evaluates the macro on [tail] and
    drops the value, so [tail] is not written; line 125 names the callback
    pointer without calling it. *)
Definition Buffer_WriteChar (self : Buffer) (receivedChar : Z)
    : option Buffer :=
  let tempHead :=
    to_u8 (CircularIncrement (head (private self)) (size (private self))) in
  if negb (tempHead =? tail (private self)) then
    match store (buffer (private self)) (head (private self)) receivedChar with
    | Some a =>
        let self := set_buffer self a in
        let self := set_head self tempHead in
        Some (set_count self (to_u8 (count self + 1)))
    | None => None
    end
  else if enableOverwrite self then
    match store (buffer (private self)) (head (private self)) receivedChar with
    | Some a =>
        let self := set_buffer self a in
        let self := set_head self tempHead in
        Some (set_overflow self true)
    | None => None
    end
  else
    if negb (overflow self) then
      match store (buffer (private self)) (head (private self))
                  receivedChar with
      | Some a =>
          let self := set_buffer self a in
          Some (set_overflow self true)
      | None => None
      end
    else Some (set_overflow self true).

(** Buffer.c, lines 141-154.  Line 149 evaluates the macro on [tail] and
    drops the value, so [tail] is not written. *)
Definition Buffer_ReadChar (self : Buffer) : option (Z * Buffer) :=
  let dataToReturn := 0 in
  if negb (head (private self) =? tail (private self)) then
    match load (buffer (private self)) (tail (private self)) with
    | Some dataToReturn =>
        let self := set_count self (to_u8 (count self - 1)) in
        let self := set_overflow self false in
        Some (dataToReturn, self)
    | None => None
    end
  else Some (dataToReturn, self).

(** Buffer.c, lines 163-224. *)
Definition Buffer_GetCount (self : Buffer) : Z := count self.

Definition Buffer_IsFull (self : Buffer) : bool :=
  let tempHead :=
    to_u8 (CircularIncrement (head (private self)) (size (private self))) in
  if tempHead =? tail (private self) then true else false.

Definition Buffer_IsNotEmpty (self : Buffer) : bool :=
  if negb (count self =? 0) then true else false.

Definition Buffer_DidOverflow (self : Buffer) : bool * Buffer :=
  let temp := overflow self in
  let self := set_overflow self false in
  (temp, self).

(** What a caller does with an initialised buffer. *)
Inductive Op : Type :=
| OpWriteChar (receivedChar : Z)
| OpReadChar
| OpDidOverflow.

(** One operation; the value it returns, if any, is dropped. *)
Definition apply_op (self : Buffer) (o : Op) : option Buffer :=
  match o with
  | OpWriteChar receivedChar => Buffer_WriteChar self receivedChar
  | OpReadChar =>
      match Buffer_ReadChar self with
      | Some (_, self) => Some self
      | None => None
      end
  | OpDidOverflow => Some (snd (Buffer_DidOverflow self))
  end.

Fixpoint exec (self : Buffer) (ops : list Op) : option Buffer :=
  match ops with
  | [] => Some self
  | o :: rest =>
      match apply_op self o with
      | Some self => exec self rest
      | None => None
      end
  end.

(** [n] calls of [Buffer_ReadChar] in a row, with the bytes they return,
    in order. *)
Fixpoint Buffer_ReadChars (self : Buffer) (n : nat)
    : option (list Z * Buffer) :=
  match n with
  | O => Some ([], self)
  | S n =>
      match Buffer_ReadChar self with
      | Some (d, self) =>
          match Buffer_ReadChars self n with
          | Some (ds, self) => Some (d :: ds, self)
          | None => None
          end
      | None => None
      end
  end.

(** The bytes written one after the other. *)
Definition writes (chars : list Z) : list Op := map OpWriteChar chars.

(** The indices are inside the array that [size] announces, and that
    array is inside the one the pointer points to. *)
Definition in_bounds (self : Buffer) : Prop :=
  size (private self) <= Z.of_nat (length (buffer (private self))) /\
  size (private self) < UINT8_MODULUS /\
  0 <= head (private self) < size (private self) /\
  0 <= tail (private self) < size (private self).

End Buffer.

(** The oldest byte of a buffer that does not overwrite: it is at [tail],
    and [head] is somewhere else. *)
Definition Buffer_oldest (c : Z) (b : Buffer.Buffer) : Prop :=
  Buffer.in_bounds b /\
  Buffer.enableOverwrite b = false /\
  Buffer.head (Buffer.private b) <> Buffer.tail (Buffer.private b) /\
  Buffer.load (Buffer.buffer (Buffer.private b))
              (Buffer.tail (Buffer.private b)) = Some c.

(** The callbacks a finishing tick calls. *)
Definition Timer_calls (f : Timer.TimerCallbackFunc) : list nat :=
  match f with
  | Some a => [a]
  | None => []
  end.

(** * Properties *)

(** ** Arithmetic helpers *)

Lemma to_u16_small (x : Z) : u16 x -> to_u16 x = x.
Proof.
  unfold u16, to_u16. intros H. apply Z.mod_small. exact H.
Qed.

Lemma to_u16_range (x : Z) : u16 (to_u16 x).
Proof.
  unfold u16, to_u16, UINT16_MODULUS. apply Z.mod_pos_bound. lia.
Qed.

Lemma to_u16_succ (x : Z) : u16 x -> x + 1 < UINT16_MODULUS ->
  to_u16 (x + 1) = x + 1.
Proof.
  unfold u16. intros H H1. apply to_u16_small. unfold u16. lia.
Qed.

(** Dividing a 16-bit value by a positive 16-bit value stays in range, and
    C's truncating quotient is the floor quotient there. *)
Lemma u16_quot (a t : Z) : u16 a -> 0 < t ->
  to_u16 (Z.quot a t) = a / t.
Proof.
  unfold u16, UINT16_MODULUS. intros Ha Ht.
  rewrite Z.quot_div_nonneg by lia.
  apply to_u16_small. unfold u16, UINT16_MODULUS. split.
  - apply Z.div_pos; lia.
  - apply Z.div_lt_upper_bound; nia.
Qed.

(** ** Initialisation *)

Section Init.

Variable self : Button.
Variables pressDebounceMs releaseDebounceMs longPressMs tickMs : Z.

Let s := Button_InitWithLongPressMs self pressDebounceMs
           releaseDebounceMs longPressMs tickMs.

Lemma init_state : buttonState s = BUTTON_UP.
Proof. reflexivity. Qed.

Lemma init_flags : flags s = flags self.
Proof.
  subst s. unfold Button_InitWithLongPressMs.
  destruct (negb (tickMs =? 0)); simpl;
    match goal with |- context [if ?c then _ else _] => destruct c end;
    reflexivity.
Qed.

Lemma init_counters :
  longPressCounter s = longPressCounter self /\
  debounceCounter s = debounceCounter self.
Proof.
  subst s. unfold Button_InitWithLongPressMs.
  destruct (negb (tickMs =? 0)); simpl;
    match goal with |- context [if ?c then _ else _] => destruct c end;
    split; reflexivity.
Qed.

(** The type is a function of the period the struct holds on return. *)
Lemma init_type :
  buttonType s =
  if longPressPeriod s =? 0 then SHORT_PRESS_TYPE else LONG_PRESS_TYPE.
Proof.
  subst s. unfold Button_InitWithLongPressMs.
  destruct (negb (tickMs =? 0)); simpl;
    match goal with
    | |- context [if ?c then _ else _] => destruct c eqn:E
    end; simpl in *; rewrite E; reflexivity.
Qed.

Lemma init_periods_nonzero_tick : tickMs <> 0 ->
  pressDebouncePeriod s = to_u16 (Z.quot pressDebounceMs tickMs) /\
  releaseDebouncePeriod s = to_u16 (Z.quot releaseDebounceMs tickMs) /\
  longPressPeriod s = to_u16 (Z.quot longPressMs tickMs).
Proof.
  intros Ht. subst s. unfold Button_InitWithLongPressMs.
  apply Z.eqb_neq in Ht. rewrite Ht. simpl.
  match goal with |- context [if ?c then _ else _] => destruct c end;
    simpl; repeat split; reflexivity.
Qed.

Lemma init_periods_zero_tick : tickMs = 0 ->
  pressDebouncePeriod s = pressDebouncePeriod self /\
  releaseDebouncePeriod s = releaseDebouncePeriod self /\
  longPressPeriod s = longPressPeriod self.
Proof.
  intros Ht. subst s. unfold Button_InitWithLongPressMs.
  apply Z.eqb_eq in Ht. rewrite Ht. simpl.
  match goal with |- context [if ?c then _ else _] => destruct c end;
    simpl; repeat split; reflexivity.
Qed.

End Init.

Lemma init_wf self pd rd lp t :
  wf self -> wf (Button_InitWithLongPressMs self pd rd lp t).
Proof.
  intros (H1 & H2 & H3 & H4 & H5). unfold wf.
  destruct (init_counters self pd rd lp t) as [-> ->].
  destruct (Z.eq_dec t 0) as [Ht | Ht].
  - destruct (init_periods_zero_tick self pd rd lp t Ht) as (-> & -> & ->).
    tauto.
  - destruct (init_periods_nonzero_tick self pd rd lp t Ht) as (-> & -> & ->).
    auto using to_u16_range.
Qed.

(** C8: with a positive tick interval, each derived tick count is the
    millisecond argument divided by the interval, rounded towards zero
    (which, the operands being unsigned, is the floor), for both
    initialisation functions. *)
Theorem init_periods_are_truncated_quotients
    (self : Button) (pressDebounceMs releaseDebounceMs longPressMs tickMs : Z) :
  u16 pressDebounceMs -> u16 releaseDebounceMs -> u16 longPressMs ->
  u16 tickMs -> 0 < tickMs ->
  let s := Button_InitWithLongPressMs self pressDebounceMs
             releaseDebounceMs longPressMs tickMs in
  let s' := Button_InitMs self pressDebounceMs releaseDebounceMs tickMs in
  (pressDebouncePeriod s = pressDebounceMs / tickMs /\
   releaseDebouncePeriod s = releaseDebounceMs / tickMs /\
   longPressPeriod s = longPressMs / tickMs) /\
  (pressDebouncePeriod s = Z.quot pressDebounceMs tickMs /\
   releaseDebouncePeriod s = Z.quot releaseDebounceMs tickMs /\
   longPressPeriod s = Z.quot longPressMs tickMs) /\
  (pressDebouncePeriod s' = pressDebounceMs / tickMs /\
   releaseDebouncePeriod s' = releaseDebounceMs / tickMs /\
   longPressPeriod s' = 0 / tickMs).
Proof.
  intros Hp Hr Hl Ht Hpos s s'.
  assert (Hne : tickMs <> 0) by lia.
  assert (H0 : u16 0) by (unfold u16, UINT16_MODULUS; lia).
  destruct (init_periods_nonzero_tick self pressDebounceMs releaseDebounceMs
              longPressMs tickMs Hne) as (E1 & E2 & E3).
  destruct (init_periods_nonzero_tick self pressDebounceMs releaseDebounceMs
              0 tickMs Hne) as (F1 & F2 & F3).
  fold s in E1, E2, E3.
  change (Button_InitWithLongPressMs self pressDebounceMs releaseDebounceMs
            0 tickMs) with s' in F1, F2, F3.
  rewrite u16_quot in E1, E2, E3, F1, F2, F3 by assumption.
  repeat split; try assumption;
    rewrite Z.quot_div_nonneg by (unfold u16 in *; lia); assumption.
Qed.

Lemma init_periods_are_truncated_quotients_witness :
  let s := Button_InitWithLongPressMs zeroed 25 49 1005 10 in
  pressDebouncePeriod s = 2 /\ releaseDebouncePeriod s = 4 /\
  longPressPeriod s = 100.
Proof.
  pose proof (init_periods_are_truncated_quotients zeroed 25 49 1005 10) as H.
  unfold u16, UINT16_MODULUS in H.
  destruct H as [H _]; try lia.
  exact H.
Defined.

(** C9: whenever an initialisation call returns with [longPressPeriod]
    equal to zero, the button type is the short-press one, whichever of
    the two functions was called and whatever duration was asked for (a
    duration below one tick and a zero tick interval included). *)
Theorem init_zero_long_press_is_short_type
    (self : Button) (pressDebounceMs releaseDebounceMs longPressMs tickMs : Z) :
  (longPressPeriod (Button_InitWithLongPressMs self pressDebounceMs
                      releaseDebounceMs longPressMs tickMs) = 0 ->
   buttonType (Button_InitWithLongPressMs self pressDebounceMs
                 releaseDebounceMs longPressMs tickMs) = SHORT_PRESS_TYPE) /\
  (longPressPeriod (Button_InitMs self pressDebounceMs
                      releaseDebounceMs tickMs) = 0 ->
   buttonType (Button_InitMs self pressDebounceMs
                 releaseDebounceMs tickMs) = SHORT_PRESS_TYPE).
Proof.
  unfold Button_InitMs. split; intros H; rewrite init_type, H; reflexivity.
Qed.

Lemma init_zero_long_press_is_short_type_witness :
  buttonType (Button_InitWithLongPressMs zeroed 20 20 9 10) = SHORT_PRESS_TYPE.
Proof.
  apply (init_zero_long_press_is_short_type zeroed 20 20 9 10).
  reflexivity.
Defined.

(** ** Single ticks *)

Ltac unfold_button :=
  unfold press_accepted, release_accepted,
    raisesButtonDown, raisesButtonUp, raisesShortPress, raisesLongPress,
    Button_Get, Button_GetButtonDownEvent, Button_GetButtonUpEvent,
    Button_GetShortPress, Button_GetLongPress,
    apply_op,
    Button_ClearButtonDownFlag, Button_ClearButtonUpFlag,
    Button_ClearShortPressFlag, Button_ClearLongPressFlag,
    Button_Tick in *.

(** Case analysis on the tests of the code, innermost first. *)
Ltac split_ifs :=
  repeat match goal with
  | |- context [if ?c then _ else _] =>
      lazymatch c with
      | context [if _ then _ else _] => fail
      | _ => destruct c eqn:?; simpl in *
      end
  end.

Ltac open_button s :=
  destruct s as [?pp ?rp ?lp ?lc ?dc ?st ?ty [?fd ?fs ?fl ?fu]];
  simpl in *; subst.

(** C4: in the held-down state of a long-press button with no release
    debouncing, a tick with the sample deasserted raises the button-up
    event, moves to the released state, and raises the short-press flag
    exactly when the long-press counter is still below the long-press
    period; the long-press flag is not written, so it stays false if it
    was false. *)
Theorem held_release_without_debounce (s : Button) :
  buttonType s = LONG_PRESS_TYPE ->
  buttonState s = BUTTON_DOWN ->
  releaseDebouncePeriod s = 0 ->
  raisesButtonUp s false = true /\
  Button_GetButtonUpEvent (Button_Tick s false) = true /\
  buttonState (Button_Tick s false) = BUTTON_UP /\
  (raisesShortPress s false = true <->
   longPressCounter s < longPressPeriod s) /\
  (longPressCounter s < longPressPeriod s ->
   Button_GetShortPress (Button_Tick s false) = true) /\
  (~ longPressCounter s < longPressPeriod s ->
   Button_GetShortPress (Button_Tick s false) = Button_GetShortPress s) /\
  raisesLongPress s false = false /\
  Button_GetLongPress (Button_Tick s false) = Button_GetLongPress s /\
  longPressCounter (Button_Tick s false) = longPressCounter s.
Proof.
  intros Hty Hst Hrp. open_button s. unfold_button. simpl.
  destruct (Z.ltb_spec lc lp); simpl.
  - repeat split; auto; try lia; destruct fl; reflexivity.
  - repeat split; auto; try lia; try discriminate;
      try (destruct fl; reflexivity); destruct fs; reflexivity.
Qed.

Lemma held_release_without_debounce_witness :
  let s := Button_Run (Button_InitWithLongPressMs zeroed 0 0 30 10) [true; true] in
  raisesButtonUp s false = true /\
  buttonState (Button_Tick s false) = BUTTON_UP /\
  raisesShortPress s false = true /\
  Button_GetLongPress (Button_Tick s false) = false.
Proof.
  intros s.
  destruct (held_release_without_debounce s) as (H1 & _ & H3 & H4 & _ & _ & _ & H8 & _);
    try reflexivity.
  split; [exact H1 | split; [exact H3 | split]].
  - apply H4. vm_compute. reflexivity.
  - rewrite H8. reflexivity.
Defined.

(** C1 (what the code does): when the release debounce expires on a tick
    whose sample is asserted again, no button-up event is raised, but lines
    169-174 send the machine to [BUTTON_UP], not back to [BUTTON_DOWN]. *)
Theorem release_bounce_leaves_held_state (s : Button) :
  buttonState s = DEBOUNCE_RELEASE ->
  to_u16 (debounceCounter s + 1) = releaseDebouncePeriod s ->
  buttonState (Button_Tick s true) = BUTTON_UP /\
  buttonState (Button_Tick s true) <> BUTTON_DOWN /\
  raisesButtonUp s true = false /\
  flags (Button_Tick s true) = flags s.
Proof.
  intros Hst Hdc. open_button s. unfold_button. simpl.
  rewrite Z.eqb_refl. simpl.
  repeat split; discriminate.
Qed.

Lemma release_bounce_leaves_held_state_witness :
  let s := Button_Run (Button_InitMs zeroed 0 20 10) [true; false; true] in
  buttonState s = DEBOUNCE_RELEASE /\
  debounceCounter s = 1 /\ releaseDebouncePeriod s = 2 /\
  buttonState (Button_Tick s true) = BUTTON_UP /\
  buttonState (Button_Tick s true) <> BUTTON_DOWN /\
  raisesButtonUp s true = false.
Proof.
  intros s.
  destruct (release_bounce_leaves_held_state s) as (H1 & H2 & H3 & _);
    try reflexivity.
  split; [reflexivity | split; [reflexivity | split; [reflexivity | ]]].
  split; [exact H1 | split; [exact H2 | exact H3]].
Defined.

(** ** Sticky flags *)

Lemma tick_keeps_flag (f : Flag) (s : Button) (isPressed : bool) :
  Button_Get f s = true -> Button_Get f (Button_Tick s isPressed) = true.
Proof.
  open_button s. intros H.
  destruct f; unfold_button; simpl in *;
    destruct st, isPressed; simpl; split_ifs; assumption || reflexivity.
Qed.

Lemma run_keeps_flag (f : Flag) (samples : list bool) : forall s : Button,
  Button_Get f s = true -> Button_Get f (Button_Run s samples) = true.
Proof.
  unfold Button_Run.
  induction samples as [| b rest IH]; intros s H; simpl.
  - exact H.
  - apply IH. apply tick_keeps_flag. exact H.
Qed.

Lemma clear_clears (f : Flag) (s : Button) :
  Button_Get f (apply_op s (clear_of f)) = false.
Proof.
  destruct f; reflexivity.
Qed.

Lemma clear_keeps_others (f g : Flag) (s : Button) :
  g <> f -> Button_Get g (apply_op s (clear_of f)) = Button_Get g s.
Proof.
  intros Hne. open_button s.
  destruct f, g; try contradiction; reflexivity.
Qed.

Lemma only_matching_clear_lowers (f : Flag) (s : Button) (o : Op) :
  Button_Get f s = true -> Button_Get f (apply_op s o) = false ->
  o = clear_of f.
Proof.
  intros Hset Hclr.
  destruct o as [b | | | |].
  - simpl in Hclr. rewrite (tick_keeps_flag f s b Hset) in Hclr. discriminate.
  - destruct f; try reflexivity;
      rewrite (clear_keeps_others FShortPress) in Hclr; congruence.
  - destruct f; try reflexivity;
      rewrite (clear_keeps_others FLongPress) in Hclr; congruence.
  - destruct f; try reflexivity;
      rewrite (clear_keeps_others FButtonDown) in Hclr; congruence.
  - destruct f; try reflexivity;
      rewrite (clear_keeps_others FButtonUp) in Hclr; congruence.
Qed.

Lemma init_keeps_flag (f : Flag) (s : Button) (pd rd lp t : Z) :
  Button_Get f (Button_InitWithLongPressMs s pd rd lp t) = Button_Get f s.
Proof.
  pose proof (init_flags s pd rd lp t) as H.
  destruct f; unfold_button; rewrite H; reflexivity.
Qed.

(** C5: each of the four flags is sticky.  Once a flag reads true it
    reads true after any tick and after any run of ticks; among the
    operations on an instance the only one that can lower it is its own
    clearing accessor, which lowers it and leaves the other three as they
    were; re-initialising does not lower it either. *)
Theorem flags_are_sticky (f : Flag) (s : Button) :
  (forall isPressed : bool,
     Button_Get f s = true ->
     Button_Get f (Button_Tick s isPressed) = true) /\
  (forall samples : list bool,
     Button_Get f s = true ->
     Button_Get f (Button_Run s samples) = true) /\
  (forall o : Op,
     Button_Get f s = true -> Button_Get f (apply_op s o) = false ->
     o = clear_of f) /\
  Button_Get f (apply_op s (clear_of f)) = false /\
  (forall g : Flag,
     g <> f -> Button_Get g (apply_op s (clear_of f)) = Button_Get g s) /\
  (forall pd rd lp t : Z,
     Button_Get f (Button_InitWithLongPressMs s pd rd lp t) = Button_Get f s).
Proof.
  split; [| split; [| split; [| split; [| split]]]].
  - intros b. apply tick_keeps_flag.
  - intros l. apply run_keeps_flag.
  - intros o. apply only_matching_clear_lowers.
  - apply clear_clears.
  - intros g. apply clear_keeps_others.
  - apply init_keeps_flag.
Qed.

Lemma flags_are_sticky_witness :
  let s := Button_Run (Button_InitMs zeroed 0 0 10) [true] in
  Button_Get FShortPress s = true /\
  Button_Get FShortPress
    (Button_Run s [false; false; true; true; false; true]) = true /\
  Button_Get FButtonDown (apply_op s (clear_of FShortPress)) = true.
Proof.
  intros s.
  destruct (flags_are_sticky FShortPress s) as (_ & Hrun & _ & _ & Hoth & _).
  split; [reflexivity | split].
  - apply Hrun. reflexivity.
  - rewrite Hoth by discriminate. reflexivity.
Defined.

(** ** The long-press scenario *)

(** C3: a long-press button with no debouncing and a long-press period of
    three ticks, fed asserted four times and then deasserted.  The first
    tick enters the held-down state; the long-press flag is raised by the
    fourth tick, the third asserted one after that entry, when the counter
    reaches 3, and by no other; the short-press flag is never raised and
    reads false throughout; the last tick raises the button-up event. *)
Theorem long_press_scenario (s : Button) :
  buttonState s = BUTTON_UP ->
  buttonType s = LONG_PRESS_TYPE ->
  pressDebouncePeriod s = 0 ->
  releaseDebouncePeriod s = 0 ->
  longPressPeriod s = 3 ->
  Button_GetShortPress s = false ->
  Button_GetLongPress s = false ->
  let samples := [true; true; true; true; false] in
  buttonState (Button_Run s [true]) = BUTTON_DOWN /\
  raised raisesLongPress s samples = [false; false; false; true; false] /\
  map (fun n => Button_GetLongPress (Button_Run s (firstn n samples)))
      [0; 1; 2; 3; 4; 5]%nat = [false; false; false; false; true; true] /\
  map (fun n => longPressCounter (Button_Run s (firstn n samples)))
      [1; 2; 3; 4; 5]%nat = [0; 1; 2; 3; 3] /\
  raised raisesShortPress s samples = [false; false; false; false; false] /\
  (forall n : nat,
     Button_GetShortPress (Button_Run s (firstn n samples)) = false) /\
  raised raisesButtonUp s samples = [false; false; false; false; true] /\
  Button_GetButtonUpEvent (Button_Run s samples) = true /\
  buttonState (Button_Run s samples) = BUTTON_UP.
Proof.
  intros Hst Hty Hpp Hrp Hlp Hsp Hl samples. subst samples.
  open_button s. unfold Button_GetShortPress, Button_GetLongPress in *.
  simpl in *. destruct fs; try discriminate. destruct fl; try discriminate.
  repeat split; try reflexivity.
  intros n. do 6 (destruct n as [| n]; [reflexivity |]). reflexivity.
Qed.

Lemma long_press_scenario_witness :
  let s := Button_InitWithLongPressMs zeroed 0 0 30 10 in
  let samples := [true; true; true; true; false] in
  raised raisesLongPress s samples = [false; false; false; true; false] /\
  Button_GetShortPress (Button_Run s samples) = false /\
  raised raisesButtonUp s samples = [false; false; false; false; true].
Proof.
  intros s samples.
  destruct (long_press_scenario s) as (_ & H2 & _ & _ & _ & H6 & H7 & _);
    try reflexivity.
  split; [exact H2 | split; [exact (H6 5%nat) | exact H7]].
Defined.

(** ** Pairing of the edge events *)

(** C2 (what the code does): with a release debounce of two ticks, a
    press followed by a one-tick bounce and a steady hold raises the
    button-down event at the first and at the fifth tick, and the
    button-up event at none: the fourth tick leaves the held-down state
    through lines 169-174 without an event, and the fifth sees a new press. *)
Theorem down_event_repeats_without_up :
  let s := Button_InitMs zeroed 0 20 10 in
  let samples := [true; false; true; true; true] in
  raised raisesButtonDown s samples = [true; false; false; false; true] /\
  raised raisesButtonUp s samples = [false; false; false; false; false] /\
  map (fun n => buttonState (Button_Run s (firstn n samples)))
      [1; 2; 3; 4; 5]%nat =
    [BUTTON_DOWN; DEBOUNCE_RELEASE; DEBOUNCE_RELEASE; BUTTON_UP; BUTTON_DOWN].
Proof.
  repeat split; reflexivity.
Qed.

(** ** Debouncing *)

Lemma Button_Run_app (s : Button) (l1 l2 : list bool) :
  Button_Run s (l1 ++ l2) = Button_Run (Button_Run s l1) l2.
Proof.
  unfold Button_Run. apply fold_left_app.
Qed.

Lemma raised_app (ev : Button -> bool -> bool) (l1 l2 : list bool) :
  forall s : Button,
  raised ev s (l1 ++ l2) = raised ev s l1 ++ raised ev (Button_Run s l1) l2.
Proof.
  induction l1 as [| b l1 IH]; intros s; simpl.
  - reflexivity.
  - rewrite IH. reflexivity.
Qed.

Lemma set_debounceCounter_same (s : Button) :
  set_debounceCounter s (debounceCounter s) = s.
Proof.
  destruct s. reflexivity.
Qed.

Lemma quiet_nil (s : Button) : quiet s [].
Proof.
  repeat split; constructor.
Qed.

Lemma quiet_cons (s : Button) (b : bool) (l : list bool) :
  raisesButtonDown s b = false -> raisesButtonUp s b = false ->
  raisesShortPress s b = false -> raisesLongPress s b = false ->
  quiet (Button_Tick s b) l -> quiet s (b :: l).
Proof.
  intros H1 H2 H3 H4 (Q1 & Q2 & Q3 & Q4).
  unfold quiet. simpl. rewrite H1, H2, H3, H4.
  repeat split; constructor; auto.
Qed.

Lemma quiet_one (s : Button) (b : bool) :
  raisesButtonDown s b = false -> raisesButtonUp s b = false ->
  raisesShortPress s b = false -> raisesLongPress s b = false ->
  quiet s [b].
Proof.
  intros. apply quiet_cons; auto using quiet_nil.
Qed.

Lemma quiet_app (s : Button) (l1 l2 : list bool) :
  quiet s (l1 ++ l2) <-> quiet s l1 /\ quiet (Button_Run s l1) l2.
Proof.
  unfold quiet. rewrite !raised_app, !Forall_app. tauto.
Qed.

Lemma quiet_head (s : Button) (b : bool) (l : list bool) :
  quiet s (b :: l) ->
  raisesButtonDown s b = false /\ raisesButtonUp s b = false /\
  raisesShortPress s b = false /\ raisesLongPress s b = false.
Proof.
  intros (Q1 & Q2 & Q3 & Q4). simpl in *.
  inversion Q1; inversion Q2; inversion Q3; inversion Q4; subst.
  repeat split; congruence.
Qed.

(** A tick in a debounce state that does not bring the counter to the
    period only stores the incremented counter, whatever the sample. *)
Lemma press_pending (s : Button) (isPressed : bool) :
  buttonState s = DEBOUNCE_PRESS ->
  to_u16 (debounceCounter s + 1) <> pressDebouncePeriod s ->
  Button_Tick s isPressed =
    set_debounceCounter s (to_u16 (debounceCounter s + 1)) /\
  quiet s [isPressed].
Proof.
  intros Hst Hne. open_button s. unfold quiet. unfold_button. simpl.
  destruct (Z.eqb_spec (to_u16 (dc + 1)) pp); [contradiction |].
  repeat split; repeat constructor.
Qed.

Lemma release_pending (s : Button) (isPressed : bool) :
  buttonState s = DEBOUNCE_RELEASE ->
  to_u16 (debounceCounter s + 1) <> releaseDebouncePeriod s ->
  Button_Tick s isPressed =
    set_debounceCounter s (to_u16 (debounceCounter s + 1)) /\
  quiet s [isPressed].
Proof.
  intros Hst Hne. open_button s. unfold quiet. unfold_button. simpl.
  destruct (Z.eqb_spec (to_u16 (dc + 1)) rp); [contradiction |].
  repeat split; repeat constructor.
Qed.

(** The tick at which the counter reaches the period decides by its own
    sample alone. *)
Lemma press_threshold (s : Button) (isPressed : bool) :
  buttonState s = DEBOUNCE_PRESS ->
  to_u16 (debounceCounter s + 1) = pressDebouncePeriod s ->
  (press_accepted s isPressed <-> isPressed = true) /\
  (isPressed = false ->
   Button_Tick s isPressed =
     set_buttonState (set_debounceCounter s (pressDebouncePeriod s))
                     BUTTON_UP) /\
  buttonState (Button_Tick s isPressed) <> DEBOUNCE_PRESS.
Proof.
  intros Hst Heq. open_button s. unfold_button. simpl.
  rewrite Z.eqb_refl.
  destruct isPressed; simpl; repeat split; try discriminate; auto;
    intros []; discriminate.
Qed.

Lemma release_threshold (s : Button) (isPressed : bool) :
  buttonState s = DEBOUNCE_RELEASE ->
  to_u16 (debounceCounter s + 1) = releaseDebouncePeriod s ->
  (release_accepted s isPressed <-> isPressed = false) /\
  (isPressed = true ->
   Button_Tick s isPressed =
     set_buttonState (set_debounceCounter s (releaseDebouncePeriod s))
                     BUTTON_UP) /\
  buttonState (Button_Tick s isPressed) <> DEBOUNCE_RELEASE.
Proof.
  intros Hst Heq. open_button s. unfold_button. simpl.
  rewrite Z.eqb_refl.
  destruct isPressed; simpl; repeat split; try discriminate; auto;
    intros []; discriminate.
Qed.

(** Any samples fed while the counter stays below the period are
    ignored: the run only advances the counter by its length. *)
Lemma press_wait (l : list bool) : forall s : Button,
  buttonState s = DEBOUNCE_PRESS ->
  0 <= debounceCounter s ->
  pressDebouncePeriod s < UINT16_MODULUS ->
  debounceCounter s + Z.of_nat (length l) < pressDebouncePeriod s ->
  Button_Run s l =
    set_debounceCounter s (debounceCounter s + Z.of_nat (length l)) /\
  quiet s l.
Proof.
  induction l as [| b l IH]; intros s Hst H0 Hp Hlt.
  - simpl. rewrite Z.add_0_r, set_debounceCounter_same.
    split; [reflexivity | apply quiet_nil].
  - simpl length in *. rewrite Nat2Z.inj_succ in *.
    assert (E : to_u16 (debounceCounter s + 1) = debounceCounter s + 1)
      by (apply to_u16_succ; unfold u16; lia).
    destruct (press_pending s b Hst) as [Ht Hq]; [lia |].
    rewrite E in Ht.
    destruct (IH (Button_Tick s b)) as [Hr Hq'];
      [rewrite Ht; exact Hst | rewrite Ht; simpl; lia
      | rewrite Ht; exact Hp | rewrite Ht; simpl; lia |].
    split.
    + change (Button_Run s (b :: l)) with (Button_Run (Button_Tick s b) l).
      rewrite Hr, Ht. destruct s; simpl. unfold set_debounceCounter; simpl.
      f_equal. lia.
    + destruct (quiet_head _ _ _ Hq) as (Q1 & Q2 & Q3 & Q4).
      apply quiet_cons; assumption.
Qed.

Lemma release_wait (l : list bool) : forall s : Button,
  buttonState s = DEBOUNCE_RELEASE ->
  0 <= debounceCounter s ->
  releaseDebouncePeriod s < UINT16_MODULUS ->
  debounceCounter s + Z.of_nat (length l) < releaseDebouncePeriod s ->
  Button_Run s l =
    set_debounceCounter s (debounceCounter s + Z.of_nat (length l)) /\
  quiet s l.
Proof.
  induction l as [| b l IH]; intros s Hst H0 Hp Hlt.
  - simpl. rewrite Z.add_0_r, set_debounceCounter_same.
    split; [reflexivity | apply quiet_nil].
  - simpl length in *. rewrite Nat2Z.inj_succ in *.
    assert (E : to_u16 (debounceCounter s + 1) = debounceCounter s + 1)
      by (apply to_u16_succ; unfold u16; lia).
    destruct (release_pending s b Hst) as [Ht Hq]; [lia |].
    rewrite E in Ht.
    destruct (IH (Button_Tick s b)) as [Hr Hq'];
      [rewrite Ht; exact Hst | rewrite Ht; simpl; lia
      | rewrite Ht; exact Hp | rewrite Ht; simpl; lia |].
    split.
    + change (Button_Run s (b :: l)) with (Button_Run (Button_Tick s b) l).
      rewrite Hr, Ht. destruct s; simpl. unfold set_debounceCounter; simpl.
      f_equal. lia.
    + destruct (quiet_head _ _ _ Hq) as (Q1 & Q2 & Q3 & Q4).
      apply quiet_cons; assumption.
Qed.

Lemma press_rejected (s : Button) :
  buttonState s = DEBOUNCE_PRESS ->
  to_u16 (debounceCounter s + 1) = pressDebouncePeriod s ->
  Button_Tick s false =
    set_buttonState (set_debounceCounter s (pressDebouncePeriod s))
                    BUTTON_UP /\
  quiet s [false].
Proof.
  intros Hst Heq. open_button s. unfold quiet. unfold_button. simpl.
  rewrite Z.eqb_refl. simpl. repeat split; repeat constructor.
Qed.

Lemma press_begin (s : Button) :
  buttonState s = BUTTON_UP ->
  pressDebouncePeriod s <> 0 ->
  Button_Tick s true =
    set_debounceCounter (set_buttonState s DEBOUNCE_PRESS) 0 /\
  quiet s [true].
Proof.
  intros Hst Hne. open_button s. unfold quiet. unfold_button. simpl.
  destruct (Z.eqb_spec pp 0); [contradiction |].
  repeat split; repeat constructor.
Qed.

Lemma released_idle (m : nat) (s : Button) :
  buttonState s = BUTTON_UP ->
  Button_Run s (repeat false m) = s /\ quiet s (repeat false m).
Proof.
  intros Hst. induction m as [| m [IHr IHq]]; simpl.
  - split; [reflexivity | apply quiet_nil].
  - assert (Ht : Button_Tick s false = s)
      by (unfold Button_Tick; rewrite Hst; reflexivity).
    split.
    + change (Button_Run s (false :: repeat false m))
        with (Button_Run (Button_Tick s false) (repeat false m)).
      rewrite Ht. exact IHr.
    + apply quiet_cons; try (rewrite Ht; exact IHq);
        open_button s; reflexivity.
Qed.

(** C10: in either debounce state the samples are ignored until the
    counter reaches the period.  A tick that does not bring the counter to
    the period only stores the incremented counter, for either sample;
    any two sample sequences of the length that is left to the period lead
    to the same instance and raise nothing; and the tick that reaches the
    period accepts the press exactly when its sample is asserted, and the
    release exactly when its sample is deasserted. *)
Theorem debounce_decided_by_threshold_sample
    (s : Button) (l1 l2 : list bool) (isPressed : bool) :
  wf s ->
  length l1 = length l2 ->
  (buttonState s = DEBOUNCE_PRESS ->
   (to_u16 (debounceCounter s + 1) <> pressDebouncePeriod s ->
    Button_Tick s isPressed =
      set_debounceCounter s (to_u16 (debounceCounter s + 1)) /\
    quiet s [isPressed]) /\
   (to_u16 (debounceCounter s + 1) = pressDebouncePeriod s ->
    (press_accepted s isPressed <-> isPressed = true)) /\
   (debounceCounter s + Z.of_nat (length l1) + 1 = pressDebouncePeriod s ->
    Button_Run s l1 =
      set_debounceCounter s (pressDebouncePeriod s - 1) /\
    Button_Run s l1 = Button_Run s l2 /\
    quiet s l1 /\
    (press_accepted (Button_Run s l1) isPressed <-> isPressed = true))) /\
  (buttonState s = DEBOUNCE_RELEASE ->
   (to_u16 (debounceCounter s + 1) <> releaseDebouncePeriod s ->
    Button_Tick s isPressed =
      set_debounceCounter s (to_u16 (debounceCounter s + 1)) /\
    quiet s [isPressed]) /\
   (to_u16 (debounceCounter s + 1) = releaseDebouncePeriod s ->
    (release_accepted s isPressed <-> isPressed = false)) /\
   (debounceCounter s + Z.of_nat (length l1) + 1 = releaseDebouncePeriod s ->
    Button_Run s l1 =
      set_debounceCounter s (releaseDebouncePeriod s - 1) /\
    Button_Run s l1 = Button_Run s l2 /\
    quiet s l1 /\
    (release_accepted (Button_Run s l1) isPressed <-> isPressed = false))).
Proof.
  intros (Hpp & Hrp & _ & _ & Hdc) Hlen. unfold u16 in *.
  split; intros Hst; (split; [| split]).
  - apply press_pending. exact Hst.
  - intros Heq. apply press_threshold; assumption.
  - intros Hsum.
    destruct (press_wait l1 s) as [E1 Q1]; try assumption; try lia.
    destruct (press_wait l2 s) as [E2 _]; try assumption; try lia.
    split; [rewrite E1; f_equal; lia | split; [| split]].
    + rewrite E1, E2, Hlen. reflexivity.
    + exact Q1.
    + apply press_threshold; rewrite E1; simpl; [exact Hst |].
      rewrite to_u16_small; unfold u16; lia.
  - apply release_pending. exact Hst.
  - intros Heq. apply release_threshold; assumption.
  - intros Hsum.
    destruct (release_wait l1 s) as [E1 Q1]; try assumption; try lia.
    destruct (release_wait l2 s) as [E2 _]; try assumption; try lia.
    split; [rewrite E1; f_equal; lia | split; [| split]].
    + rewrite E1, E2, Hlen. reflexivity.
    + exact Q1.
    + apply release_threshold; rewrite E1; simpl; [exact Hst |].
      rewrite to_u16_small; unfold u16; lia.
Qed.

Lemma debounce_decided_by_threshold_sample_witness :
  let s := Button_Run (Button_InitMs zeroed 30 30 10) [true] in
  buttonState s = DEBOUNCE_PRESS /\
  Button_Run s [true; false] = Button_Run s [false; true] /\
  press_accepted (Button_Run s [true; false]) true.
Proof.
  intros s.
  assert (Hwf : wf s) by (vm_compute; intuition discriminate).
  destruct (debounce_decided_by_threshold_sample
              s [true; false] [false; true] true Hwf eq_refl) as [Hp _].
  destruct (Hp eq_refl) as (_ & _ & Hrun).
  destruct (Hrun eq_refl) as (_ & Heq & _ & Hacc).
  split; [reflexivity | split; [exact Heq | apply Hacc; reflexivity]].
Defined.

(** C7: with a press debounce of at least one tick, a sample asserted for
    fewer ticks than the period and deasserted from then on raises no
    flag at all, the button-down event in particular, at any tick; once
    the debounce has run out (more ticks than the period in total) the
    machine is back in the released state with its flags as they were. *)
Theorem short_press_is_suppressed (s : Button) (k m : nat) :
  wf s ->
  buttonState s = BUTTON_UP ->
  0 < pressDebouncePeriod s ->
  Z.of_nat k < pressDebouncePeriod s ->
  pressDebouncePeriod s < Z.of_nat k + Z.of_nat m ->
  let samples := repeat true k ++ repeat false m in
  Forall (eq false) (raised raisesButtonDown s samples) /\
  quiet s samples /\
  (forall n : nat, quiet s (repeat true k ++ repeat false n)) /\
  buttonState (Button_Run s samples) = BUTTON_UP /\
  flags (Button_Run s samples) = flags s.
Proof.
  intros (Hpp & _ & _ & _ & _) Hst Hpos Hk Hm samples. unfold u16 in Hpp.
  assert (Main : forall n : nat,
            pressDebouncePeriod s < Z.of_nat k + Z.of_nat n ->
            quiet s (repeat true k ++ repeat false n) /\
            buttonState (Button_Run s (repeat true k ++ repeat false n))
              = BUTTON_UP /\
            flags (Button_Run s (repeat true k ++ repeat false n))
              = flags s).
  { intros n Hn. destruct k as [| k].
    - simpl. destruct (released_idle n s Hst) as [-> Hq]. auto.
    - set (a := (Z.to_nat (pressDebouncePeriod s) - S k)%nat).
      set (r := (n - a - 1)%nat).
      replace n with (a + S r)%nat by lia.
      replace (repeat true (S k) ++ repeat false (a + S r))
        with ([true] ++ (repeat true k ++ repeat false a)
                ++ [false] ++ repeat false r)
        by (rewrite (repeat_app false a (S r)), <- app_assoc; reflexivity).
      set (mid := repeat true k ++ repeat false a).
      assert (Hlen : Z.of_nat (length mid) = pressDebouncePeriod s - 1).
      { subst mid. rewrite length_app, !repeat_length. lia. }
      destruct (press_begin s Hst) as [E1 Q1]; [lia |].
      set (s1 := Button_Tick s true) in *.
      destruct (press_wait mid s1) as [E2 Q2];
        try (rewrite E1; simpl; (exact Hst || reflexivity || lia)).
      set (s2 := Button_Run s1 mid) in *.
      assert (Hdc2 : debounceCounter s2 = pressDebouncePeriod s - 1)
        by (rewrite E2, E1; simpl; lia).
      assert (Hpp2 : pressDebouncePeriod s2 = pressDebouncePeriod s)
        by (rewrite E2, E1; reflexivity).
      destruct (press_rejected s2) as [E3 Q3];
        [rewrite E2, E1; reflexivity
        | rewrite Hdc2, Hpp2, Z.sub_add; apply to_u16_small; exact Hpp |].
      set (s3 := Button_Tick s2 false) in *.
      destruct (released_idle r s3) as [E4 Q4]; [rewrite E3; reflexivity |].
      assert (R : Button_Run s ([true] ++ mid ++ [false] ++ repeat false r)
                  = s3).
      { rewrite !Button_Run_app. exact E4. }
      split; [| split].
      + apply quiet_app. split; [exact Q1 |].
        apply quiet_app. split; [exact Q2 |].
        apply quiet_app. split; [exact Q3 | exact Q4].
      + rewrite R, E3. reflexivity.
      + rewrite R, E3, E2, E1. reflexivity. }
  destruct (Main m Hm) as (Q & Hs & Hf).
  split; [apply Q | split; [exact Q | split; [| split; assumption]]].
  intros n.
  destruct (Main (n + m)%nat) as (Q' & _); [lia |].
  rewrite repeat_app, app_assoc in Q'.
  apply quiet_app in Q'. apply Q'.
Qed.

Lemma short_press_is_suppressed_witness :
  let s := Button_InitMs zeroed 30 0 10 in
  let samples := [true; true; false; false; false] in
  Forall (eq false) (raised raisesButtonDown s samples) /\
  buttonState (Button_Run s samples) = BUTTON_UP.
Proof.
  intros s samples.
  assert (Hwf : wf s) by (vm_compute; intuition discriminate).
  destruct (short_press_is_suppressed s 2 3 Hwf eq_refl)
    as (Hd & _ & _ & Hs & _); try (vm_compute; reflexivity).
  split; [exact Hd | exact Hs].
Defined.

(** ** Counter bounds *)

Lemma to_u16_succ_cases (x : Z) : u16 x ->
  (to_u16 (x + 1) = x + 1 /\ x + 1 < UINT16_MODULUS) \/
  (to_u16 (x + 1) = 0 /\ x + 1 = UINT16_MODULUS).
Proof.
  unfold u16, to_u16, UINT16_MODULUS. intros H.
  destruct (Z.eq_dec x 65535) as [-> | Hne].
  - right. split; reflexivity.
  - left. split; [apply Z.mod_small |]; lia.
Qed.

Ltac tests_to_props :=
  repeat match goal with
  | H : (_ =? _) = true |- _ => apply Z.eqb_eq in H
  | H : (_ =? _) = false |- _ => apply Z.eqb_neq in H
  | H : (_ <? _) = true |- _ => apply Z.ltb_lt in H
  | H : (_ <? _) = false |- _ => apply Z.ltb_ge in H
  end.

(** The configuration is not written by a tick. *)
Lemma tick_config (s : Button) (isPressed : bool) :
  pressDebouncePeriod (Button_Tick s isPressed) = pressDebouncePeriod s /\
  releaseDebouncePeriod (Button_Tick s isPressed) = releaseDebouncePeriod s /\
  longPressPeriod (Button_Tick s isPressed) = longPressPeriod s /\
  buttonType (Button_Tick s isPressed) = buttonType s.
Proof.
  open_button s. unfold_button.
  destruct st, isPressed; simpl; split_ifs; repeat split.
Qed.

Lemma tick_wf (s : Button) (isPressed : bool) :
  wf s -> wf (Button_Tick s isPressed).
Proof.
  unfold wf. intros (H1 & H2 & H3 & H4 & H5).
  destruct (tick_config s isPressed) as (-> & -> & -> & _).
  repeat (split; [assumption |]).
  pose proof (to_u16_range (debounceCounter s + 1)) as Hd.
  pose proof (to_u16_range (longPressCounter s + 1)) as Hl.
  assert (Hz : u16 0) by (unfold u16, UINT16_MODULUS; lia).
  open_button s. unfold_button.
  destruct st, isPressed; simpl; split_ifs; split; assumption.
Qed.

Lemma tick_counters_ok (s : Button) (isPressed : bool) :
  wf s -> counters_ok s -> counters_ok (Button_Tick s isPressed).
Proof.
  unfold wf, counters_ok. intros (H1 & H2 & H3 & H4 & H5) (I1 & I2 & I3).
  destruct (to_u16_succ_cases _ H5) as [[Ed Hd] | [Ed Hd]];
  destruct (to_u16_succ_cases _ H4) as [[El Hl] | [El Hl]];
  open_button s; unfold u16 in *; unfold_button;
  destruct st, isPressed; simpl; split_ifs; tests_to_props;
  repeat split; intros; try discriminate; try lia;
  try (assert (dc < pp) by auto; lia);
  try (assert (dc < rp) by auto; lia);
  try (assert (lc <= lp) by auto; lia);
  try (destruct H as [H | H]; discriminate).
Qed.

(** With the long-press counter within the period in every state. *)
Lemma tick_longPressCounter_le (s : Button) (isPressed : bool) :
  wf s ->
  longPressCounter s <= longPressPeriod s ->
  longPressCounter (Button_Tick s isPressed)
    <= longPressPeriod (Button_Tick s isPressed).
Proof.
  unfold wf. intros (H1 & H2 & H3 & H4 & H5) Hle.
  destruct (to_u16_succ_cases _ H4) as [[El Hl] | [El Hl]];
  open_button s; unfold u16 in *; unfold_button;
  destruct st, isPressed; simpl; split_ifs; tests_to_props; lia.
Qed.

(** What a single tick can do to the counters and to a debounce state. *)
Lemma tick_counter_steps (s : Button) (isPressed : bool) :
  wf s -> counters_ok s ->
  (buttonState s = DEBOUNCE_PRESS ->
   (buttonState (Button_Tick s isPressed) <> DEBOUNCE_PRESS <->
    debounceCounter (Button_Tick s isPressed) = pressDebouncePeriod s)) /\
  (buttonState s = DEBOUNCE_RELEASE ->
   (buttonState (Button_Tick s isPressed) <> DEBOUNCE_RELEASE <->
    debounceCounter (Button_Tick s isPressed) = releaseDebouncePeriod s)) /\
  (buttonState s = DEBOUNCE_PRESS \/ buttonState s = DEBOUNCE_RELEASE ->
   debounceCounter (Button_Tick s isPressed) = debounceCounter s + 1) /\
  (longPressCounter s < longPressCounter (Button_Tick s isPressed) ->
   buttonState s = BUTTON_DOWN /\ isPressed = true /\
   longPressCounter s < longPressPeriod s /\
   longPressCounter (Button_Tick s isPressed) = longPressCounter s + 1) /\
  (longPressPeriod s <= longPressCounter s ->
   longPressCounter (Button_Tick s isPressed) <= longPressCounter s).
Proof.
  unfold wf, counters_ok. intros (H1 & H2 & H3 & H4 & H5) (I1 & I2 & I3).
  destruct (to_u16_succ_cases _ H5) as [[Ed Hd] | [Ed Hd]];
  destruct (to_u16_succ_cases _ H4) as [[El Hl] | [El Hl]];
  open_button s; unfold u16 in *; unfold_button;
  destruct st, isPressed; simpl; split_ifs; tests_to_props;
  repeat split; intros; try discriminate; try congruence; try lia;
  try (assert (dc < pp) by auto; lia);
  try (assert (dc < rp) by auto; lia);
  try (destruct H as [H | H]; discriminate).
Qed.

Lemma apply_op_wf (s : Button) (o : Op) : wf s -> wf (apply_op s o).
Proof.
  destruct o; [apply tick_wf | | | |]; intros H; exact H.
Qed.

Lemma apply_op_counters_ok (s : Button) (o : Op) :
  wf s -> counters_ok s -> counters_ok (apply_op s o).
Proof.
  destruct o; [apply tick_counters_ok | | | |]; intros _ H; exact H.
Qed.

Lemma apply_op_longPressCounter_le (s : Button) (o : Op) :
  wf s ->
  longPressCounter s <= longPressPeriod s ->
  longPressCounter (apply_op s o) <= longPressPeriod (apply_op s o).
Proof.
  destruct o; [apply tick_longPressCounter_le | | | |]; intros _ H; exact H.
Qed.

Lemma apply_op_config (s : Button) (o : Op) :
  pressDebouncePeriod (apply_op s o) = pressDebouncePeriod s /\
  releaseDebouncePeriod (apply_op s o) = releaseDebouncePeriod s /\
  longPressPeriod (apply_op s o) = longPressPeriod s /\
  buttonType (apply_op s o) = buttonType s.
Proof.
  destruct o; [apply tick_config | | | |]; repeat split.
Qed.

Lemma exec_invariants (ops : list Op) : forall s : Button,
  wf s -> counters_ok s ->
  wf (exec s ops) /\ counters_ok (exec s ops) /\
  (longPressCounter s <= longPressPeriod s ->
   longPressCounter (exec s ops) <= longPressPeriod (exec s ops)) /\
  pressDebouncePeriod (exec s ops) = pressDebouncePeriod s /\
  releaseDebouncePeriod (exec s ops) = releaseDebouncePeriod s /\
  longPressPeriod (exec s ops) = longPressPeriod s /\
  buttonType (exec s ops) = buttonType s.
Proof.
  induction ops as [| o ops IH]; intros s Hwf Hok.
  - simpl. split; [exact Hwf | split; [exact Hok |]]. repeat split. auto.
  - change (exec s (o :: ops)) with (exec (apply_op s o) ops).
    destruct (IH (apply_op s o)) as (W & K & L & C1 & C2 & C3 & C4);
      auto using apply_op_wf, apply_op_counters_ok.
    destruct (apply_op_config s o) as (D1 & D2 & D3 & D4).
    rewrite C1, C2, C3, C4, D1, D2, D3, D4.
    split; [exact W | split; [exact K |]].
    split; [| repeat split].
    intros Hle. rewrite <- D3, <- C3. apply L.
    apply apply_op_longPressCounter_le; assumption.
Qed.

Lemma init_counters_ok (self : Button) (pd rd lp t : Z) :
  counters_ok (Button_InitWithLongPressMs self pd rd lp t).
Proof.
  unfold counters_ok. rewrite init_state.
  repeat split; intros; try discriminate.
  destruct H; discriminate.
Qed.

Lemma Reachable_invariants (s : Button) :
  Reachable s -> wf s /\ counters_ok s.
Proof.
  intros (s0 & pd & rd & lp & t & ops & Hwf & _ & _ & _ & _ & ->).
  destruct (exec_invariants ops (Button_InitWithLongPressMs s0 pd rd lp t))
    as (W & K & _); auto using init_wf, init_counters_ok.
Qed.

(** C6 as stated does not hold in the released state: initialisation
    leaves [longPressCounter] as it finds it, so initialising again with
    a shorter long press, after a hold of three ticks, gives an instance
    whose counter (3) is above its long-press period (2). *)
Lemma longPressCounter_above_period_after_init :
  let used :=
    Button_Run (Button_InitWithLongPressMs zeroed 0 0 30 10)
               [true; true; true; true; false] in
  let s := Button_InitWithLongPressMs used 0 0 20 10 in
  Reachable s /\
  buttonState s = BUTTON_UP /\
  longPressCounter s = 3 /\ longPressPeriod s = 2 /\
  ~ (longPressCounter s <= longPressPeriod s).
Proof.
  intros used s. split.
  - exists used, 0, 0, 20, 10, [].
    unfold wf, u16, UINT16_MODULUS. vm_compute. intuition discriminate.
  - vm_compute. intuition discriminate.
Qed.

(** C6, amended: after any initialisation and any ticks and clears, the
    debounce counter is below the period of the debounce state it counts
    in, a debounce state is left exactly by the tick that brings the
    counter to that period, and until then each tick adds one; the
    long-press counter grows only by one, only in the held-down state with
    the sample asserted and the counter below the period, and never grows
    once it has reached the period; it is at most the period in the
    held-down and release-debounce states, and in every state when it was
    so on return from the initialisation. *)
Theorem counters_stay_within_periods
    (s0 : Button) (pressDebounceMs releaseDebounceMs longPressMs tickMs : Z)
    (ops : list Op) (isPressed : bool) :
  wf s0 ->
  u16 pressDebounceMs -> u16 releaseDebounceMs ->
  u16 longPressMs -> u16 tickMs ->
  let i := Button_InitWithLongPressMs s0 pressDebounceMs
             releaseDebounceMs longPressMs tickMs in
  let s := exec i ops in
  let s' := Button_Tick s isPressed in
  (buttonState s = DEBOUNCE_PRESS ->
   debounceCounter s < pressDebouncePeriod s) /\
  (buttonState s = DEBOUNCE_RELEASE ->
   debounceCounter s < releaseDebouncePeriod s) /\
  (buttonState s = DEBOUNCE_PRESS ->
   (buttonState s' <> DEBOUNCE_PRESS <->
    debounceCounter s' = pressDebouncePeriod s)) /\
  (buttonState s = DEBOUNCE_RELEASE ->
   (buttonState s' <> DEBOUNCE_RELEASE <->
    debounceCounter s' = releaseDebouncePeriod s)) /\
  (buttonState s = DEBOUNCE_PRESS \/ buttonState s = DEBOUNCE_RELEASE ->
   debounceCounter s' = debounceCounter s + 1) /\
  (longPressCounter s < longPressCounter s' ->
   buttonState s = BUTTON_DOWN /\ isPressed = true /\
   longPressCounter s < longPressPeriod s /\
   longPressCounter s' = longPressCounter s + 1) /\
  (longPressPeriod s <= longPressCounter s ->
   longPressCounter s' <= longPressCounter s) /\
  (buttonState s = BUTTON_DOWN \/ buttonState s = DEBOUNCE_RELEASE ->
   longPressCounter s <= longPressPeriod s) /\
  (longPressCounter i <= longPressPeriod i ->
   longPressCounter s <= longPressPeriod s).
Proof.
  intros Hwf _ _ _ _ i s s'.
  destruct (exec_invariants ops i) as (W & K & L & _);
    [apply init_wf; exact Hwf | apply init_counters_ok |].
  fold s in W, K, L.
  destruct (tick_counter_steps s isPressed W K) as (T1 & T2 & T3 & T4 & T5).
  destruct K as (K1 & K2 & K3).
  split; [exact K1 | split; [exact K2 | split; [exact T1 |]]].
  split; [exact T2 | split; [exact T3 | split; [exact T4 |]]].
  split; [exact T5 | split; [exact K3 | exact L]].
Qed.

Lemma counters_stay_within_periods_witness :
  let s := exec (Button_InitWithLongPressMs zeroed 20 20 30 10)
             [OpTick true; OpTick true; OpTick true; OpClearButtonDown;
              OpTick true; OpTick true; OpTick true; OpTick true] in
  buttonState s = BUTTON_DOWN /\
  longPressCounter s <= longPressPeriod s /\
  longPressCounter (Button_Tick s true) <= longPressCounter s.
Proof.
  intros s.
  assert (Hwf : wf zeroed) by (vm_compute; intuition discriminate).
  assert (H20 : u16 20) by (vm_compute; intuition discriminate).
  assert (H30 : u16 30) by (vm_compute; intuition discriminate).
  assert (H10 : u16 10) by (vm_compute; intuition discriminate).
  destruct (counters_stay_within_periods zeroed 20 20 30 10
              [OpTick true; OpTick true; OpTick true; OpClearButtonDown;
               OpTick true; OpTick true; OpTick true; OpTick true]
              true Hwf H20 H20 H30 H10)
    as (_ & _ & _ & _ & _ & _ & Hstop & Hheld & _).
  split; [reflexivity | split].
  - apply Hheld. left. reflexivity.
  - apply Hstop. vm_compute. discriminate.
Defined.

(** ** The half of the pairing that the code keeps *)

Lemma no_up_before_down_tick (s : Button) (isPressed : bool) :
  buttonState s = BUTTON_UP \/ buttonState s = DEBOUNCE_PRESS ->
  raisesButtonDown s isPressed = false ->
  raisesButtonUp s isPressed = false /\
  (buttonState (Button_Tick s isPressed) = BUTTON_UP \/
   buttonState (Button_Tick s isPressed) = DEBOUNCE_PRESS).
Proof.
  intros Hst Hd. open_button s. unfold_button.
  destruct Hst as [-> | ->]; destruct isPressed; simpl in *;
    split_ifs; try discriminate; auto.
Qed.

Lemma no_up_before_down (samples : list bool) : forall s : Button,
  buttonState s = BUTTON_UP \/ buttonState s = DEBOUNCE_PRESS ->
  Forall (eq false) (raised raisesButtonDown s samples) ->
  Forall (eq false) (raised raisesButtonUp s samples).
Proof.
  induction samples as [| b rest IH]; intros s Hst Hd; simpl in *.
  - constructor.
  - inversion Hd as [| x xs Hx Hxs]; subst.
    destruct (no_up_before_down_tick s b Hst (eq_sym Hx)) as [Hu Hst'].
    constructor; [congruence | apply IH; assumption].
Qed.

Lemma up_tick_releases (s : Button) (isPressed : bool) :
  raisesButtonUp s isPressed = true ->
  buttonState (Button_Tick s isPressed) = BUTTON_UP.
Proof.
  open_button s. unfold_button.
  destruct st, ty, isPressed; simpl; split_ifs; intros Hu;
    discriminate || reflexivity.
Qed.

(** After a tick that raises the button-up event, no later tick raises it
    again before some tick raises the button-down event; a tick never
    raises both. *)
Lemma up_event_needs_down_in_between
    (s : Button) (isPressed : bool) (samples : list bool) :
  raisesButtonUp s isPressed = true ->
  raisesButtonDown s isPressed = false /\
  (Forall (eq false)
     (raised raisesButtonDown (Button_Tick s isPressed) samples) ->
   Forall (eq false)
     (raised raisesButtonUp (Button_Tick s isPressed) samples)).
Proof.
  intros Hu. split.
  - revert Hu. open_button s. unfold_button.
    destruct st, ty, isPressed; simpl; split_ifs; intros Hu;
      discriminate || reflexivity.
  - apply no_up_before_down. left. apply up_tick_releases. exact Hu.
Qed.

(** * Further properties of the button machine *)

(** ** Events and the states they lead to *)

(** A tick that raises the button-down event had an asserted sample and
    ends in the held-down state with the long-press counter at zero; a
    tick that raises the button-up event had a deasserted sample and ends
    in the released state; no tick raises both. *)
Theorem edge_events_enter_their_states (s : Button) (isPressed : bool) :
  (raisesButtonDown s isPressed = true ->
   isPressed = true /\
   buttonState (Button_Tick s isPressed) = BUTTON_DOWN /\
   longPressCounter (Button_Tick s isPressed) = 0 /\
   raisesButtonUp s isPressed = false) /\
  (raisesButtonUp s isPressed = true ->
   isPressed = false /\
   buttonState (Button_Tick s isPressed) = BUTTON_UP /\
   raisesButtonDown s isPressed = false).
Proof.
  open_button s. unfold_button.
  split; destruct st, ty, isPressed; simpl; split_ifs; intros Hu;
    try discriminate; repeat split.
Qed.

Lemma edge_events_enter_their_states_witness :
  let s := Button_InitMs zeroed 0 0 10 in
  buttonState (Button_Tick s true) = BUTTON_DOWN /\
  raisesButtonUp s true = false.
Proof.
  intros s.
  destruct (edge_events_enter_their_states s true) as [Hd _].
  destruct (Hd eq_refl) as (_ & H1 & _ & H2).
  split; [exact H1 | exact H2].
Defined.

(** ** Which flags each button type uses *)

Lemma type_discipline_tick (s : Button) (isPressed : bool) :
  (buttonType s = SHORT_PRESS_TYPE ->
   raisesLongPress s isPressed = false /\
   raisesShortPress s isPressed = raisesButtonDown s isPressed) /\
  (buttonType s = LONG_PRESS_TYPE ->
   (raisesShortPress s isPressed = true ->
    raisesButtonUp s isPressed = true /\
    longPressCounter s < longPressPeriod s) /\
   (raisesLongPress s isPressed = true ->
    buttonState s = BUTTON_DOWN /\ isPressed = true /\
    longPressCounter (Button_Tick s isPressed) = longPressPeriod s)).
Proof.
  open_button s. unfold_button.
  split; intros ->; destruct st, isPressed; simpl; split_ifs;
    tests_to_props; repeat split; intros; try discriminate;
    try reflexivity; try assumption.
Qed.

(** A short-press button never raises the long-press flag, and raises the
    short-press flag at exactly the ticks that raise the button-down
    event; a long-press button raises the short-press flag only at ticks
    that raise the button-up event. *)
Theorem flags_follow_button_type (samples : list bool) : forall s : Button,
  (buttonType s = SHORT_PRESS_TYPE ->
   Forall (eq false) (raised raisesLongPress s samples) /\
   raised raisesShortPress s samples = raised raisesButtonDown s samples) /\
  (buttonType s = LONG_PRESS_TYPE ->
   Forall2 (fun short up => short = true -> up = true)
     (raised raisesShortPress s samples) (raised raisesButtonUp s samples)).
Proof.
  induction samples as [| b rest IH]; intros s.
  - split; intros _; simpl; [split |]; constructor.
  - destruct (tick_config s b) as (_ & _ & _ & Hty).
    destruct (type_discipline_tick s b) as [Hs Hl].
    destruct (IH (Button_Tick s b)) as [IHs IHl].
    split; intros Ht; simpl.
    + destruct (Hs Ht) as [H1 H2].
      destruct IHs as [I1 I2]; [congruence |].
      split; [constructor; [congruence | exact I1] | congruence].
    + constructor; [intros Hsp; apply (Hl Ht); exact Hsp |].
      apply IHl. congruence.
Qed.

Lemma flags_follow_button_type_witness :
  let s := Button_InitMs zeroed 20 20 10 in
  let samples := [true; true; true; false; false; false; true] in
  Forall (eq false) (raised raisesLongPress s samples) /\
  raised raisesShortPress s samples = raised raisesButtonDown s samples.
Proof.
  intros s samples.
  destruct (flags_follow_button_type samples s) as [Hs _].
  exact (Hs eq_refl).
Defined.

(** ** Debounce latency *)

Lemma press_confirmed (s : Button) :
  buttonState s = DEBOUNCE_PRESS ->
  to_u16 (debounceCounter s + 1) = pressDebouncePeriod s ->
  buttonState (Button_Tick s true) = BUTTON_DOWN /\
  longPressCounter (Button_Tick s true) = 0 /\
  raisesButtonDown s true = true /\
  raisesButtonUp s true = false /\
  raisesLongPress s true = false /\
  raisesShortPress s true = ButtonType_eqb (buttonType s) SHORT_PRESS_TYPE.
Proof.
  intros Hst Heq. open_button s. unfold_button. simpl.
  rewrite Z.eqb_refl. destruct ty; simpl; repeat split.
Qed.

(** With a press debounce of [P >= 1] ticks, a press is confirmed by the
    tick that comes [P] ticks after the first asserted sample, if its sample
    is asserted, whatever the [P - 1] samples in between: nothing is raised
    before that tick, and that tick raises the button-down event (and the
    short-press flag for a short-press button) and enters the held-down
    state. *)
Theorem debounced_press_latency (s : Button) (between : list bool) :
  wf s ->
  buttonState s = BUTTON_UP ->
  Z.of_nat (length between) + 1 = pressDebouncePeriod s ->
  let waiting := Button_Run s (true :: between) in
  quiet s (true :: between) /\
  buttonState waiting = DEBOUNCE_PRESS /\
  raisesButtonDown waiting true = true /\
  raisesShortPress waiting true
    = ButtonType_eqb (buttonType s) SHORT_PRESS_TYPE /\
  raisesLongPress waiting true = false /\
  buttonState (Button_Run s (true :: between ++ [true])) = BUTTON_DOWN /\
  longPressCounter (Button_Run s (true :: between ++ [true])) = 0.
Proof.
  intros (Hpp & _) Hst Hlen waiting. unfold u16 in Hpp.
  destruct (press_begin s Hst) as [E1 Q1]; [lia |].
  set (s1 := Button_Tick s true) in *.
  destruct (press_wait between s1) as [E2 Q2];
    [rewrite E1; reflexivity | rewrite E1; simpl; lia
    | rewrite E1; simpl; lia | rewrite E1; simpl; lia |].
  assert (Ew : waiting = Button_Run s1 between) by reflexivity.
  assert (Hw : buttonState waiting = DEBOUNCE_PRESS)
    by (rewrite Ew, E2, E1; reflexivity).
  assert (Hty : buttonType waiting = buttonType s)
    by (rewrite Ew, E2, E1; reflexivity).
  destruct (press_confirmed waiting Hw) as (C1 & C2 & C3 & _ & C5 & C6).
  { rewrite Ew, E2, E1. simpl. rewrite <- Hlen.
    apply to_u16_small. unfold u16. lia. }
  split.
  { change (true :: between) with ([true] ++ between).
    apply quiet_app. split; assumption. }
  split; [exact Hw | split; [exact C3 | split; [congruence |]]].
  split; [exact C5 |].
  change (true :: between ++ [true]) with ((true :: between) ++ [true]).
  rewrite Button_Run_app. split; assumption.
Qed.

Lemma debounced_press_latency_witness :
  let s := Button_InitMs zeroed 30 0 10 in
  quiet s [true; false; true] /\
  raisesButtonDown (Button_Run s [true; false; true]) true = true /\
  buttonState (Button_Run s [true; false; true; true]) = BUTTON_DOWN.
Proof.
  intros s.
  assert (Hwf : wf s) by (vm_compute; intuition discriminate).
  destruct (debounced_press_latency s [false; true] Hwf eq_refl eq_refl)
    as (Q & _ & Hd & _ & _ & Hs & _).
  split; [exact Q | split; [exact Hd | exact Hs]].
Defined.

Lemma release_begin (s : Button) :
  buttonState s = BUTTON_DOWN ->
  releaseDebouncePeriod s <> 0 ->
  Button_Tick s false =
    set_debounceCounter (set_buttonState s DEBOUNCE_RELEASE) 0 /\
  quiet s [false].
Proof.
  intros Hst Hne. open_button s. unfold quiet. unfold_button. simpl.
  destruct (Z.eqb_spec rp 0); [contradiction |].
  repeat split; repeat constructor.
Qed.

Lemma release_confirmed (s : Button) :
  buttonState s = DEBOUNCE_RELEASE ->
  to_u16 (debounceCounter s + 1) = releaseDebouncePeriod s ->
  buttonState (Button_Tick s false) = BUTTON_UP /\
  raisesButtonUp s false = true /\
  raisesButtonDown s false = false /\
  raisesLongPress s false = false /\
  raisesShortPress s false
    = (ButtonType_eqb (buttonType s) LONG_PRESS_TYPE
       && (longPressCounter s <? longPressPeriod s)).
Proof.
  intros Hst Heq. open_button s. unfold_button. simpl.
  rewrite Z.eqb_refl. destruct ty; simpl; [repeat split |].
  destruct (lc <? lp); simpl; repeat split.
Qed.

(** With a release debounce of [R >= 1] ticks, a release is confirmed by
    the tick that comes [R] ticks after the first deasserted sample, if
    its sample is deasserted, whatever the [R - 1] samples in between:
    nothing is raised before that tick, the long-press counter stands
    still, and that tick raises the button-up event and enters the released
    state; it raises the short-press flag exactly for a long-press
    button whose counter had not reached the long-press period. *)
Theorem debounced_release_latency (s : Button) (between : list bool) :
  wf s ->
  buttonState s = BUTTON_DOWN ->
  Z.of_nat (length between) + 1 = releaseDebouncePeriod s ->
  let waiting := Button_Run s (false :: between) in
  quiet s (false :: between) /\
  buttonState waiting = DEBOUNCE_RELEASE /\
  longPressCounter waiting = longPressCounter s /\
  raisesButtonUp waiting false = true /\
  raisesShortPress waiting false
    = (ButtonType_eqb (buttonType s) LONG_PRESS_TYPE
       && (longPressCounter s <? longPressPeriod s)) /\
  buttonState (Button_Run s (false :: between ++ [false])) = BUTTON_UP.
Proof.
  intros (_ & Hrp & _) Hst Hlen waiting. unfold u16 in Hrp.
  destruct (release_begin s Hst) as [E1 Q1]; [lia |].
  set (s1 := Button_Tick s false) in *.
  destruct (release_wait between s1) as [E2 Q2];
    [rewrite E1; reflexivity | rewrite E1; simpl; lia
    | rewrite E1; simpl; lia | rewrite E1; simpl; lia |].
  assert (Ew : waiting = Button_Run s1 between) by reflexivity.
  assert (Hw : buttonState waiting = DEBOUNCE_RELEASE)
    by (rewrite Ew, E2, E1; reflexivity).
  assert (Hty : buttonType waiting = buttonType s)
    by (rewrite Ew, E2, E1; reflexivity).
  assert (Hlc : longPressCounter waiting = longPressCounter s)
    by (rewrite Ew, E2, E1; reflexivity).
  assert (Hlp : longPressPeriod waiting = longPressPeriod s)
    by (rewrite Ew, E2, E1; reflexivity).
  destruct (release_confirmed waiting Hw) as (C1 & C2 & _ & _ & C5).
  { rewrite Ew, E2, E1. simpl. rewrite <- Hlen.
    apply to_u16_small. unfold u16. lia. }
  split.
  { change (false :: between) with ([false] ++ between).
    apply quiet_app. split; assumption. }
  split; [exact Hw | split; [exact Hlc | split; [exact C2 |]]].
  split; [congruence |].
  change (false :: between ++ [false]) with ((false :: between) ++ [false]).
  rewrite Button_Run_app. exact C1.
Qed.

Lemma debounced_release_latency_witness :
  let s := Button_Run (Button_InitWithLongPressMs zeroed 0 20 50 10)
             [true; true] in
  quiet s [false; true] /\
  raisesButtonUp (Button_Run s [false; true]) false = true /\
  raisesShortPress (Button_Run s [false; true]) false = true.
Proof.
  intros s.
  assert (Hwf : wf s) by (vm_compute; intuition discriminate).
  destruct (debounced_release_latency s [true] Hwf eq_refl eq_refl)
    as (Q & _ & _ & Hu & Hs & _).
  split; [exact Q | split; [exact Hu | exact Hs]].
Defined.

(** ** Holding the button *)








(** ** Pairing of the edge events, continued *)

Lemma up_event_needs_down_in_between_witness :
  let s := Button_Run (Button_InitMs zeroed 0 0 10) [true] in
  raisesButtonDown s false = false /\
  Forall (eq false) (raised raisesButtonUp (Button_Tick s false) [false; false]).
Proof.
  intros s.
  destruct (up_event_needs_down_in_between s false [false; false] eq_refl)
    as [H1 H2].
  split; [exact H1 | apply H2; repeat constructor].
Defined.

Lemma down_tick_holds (s : Button) (isPressed : bool) :
  raisesButtonDown s isPressed = true ->
  buttonState (Button_Tick s isPressed) = BUTTON_DOWN.
Proof.
  open_button s. unfold_button.
  destruct st, ty, isPressed; simpl; split_ifs; intros Hd;
    discriminate || reflexivity.
Qed.

Lemma no_down_before_up_tick (s : Button) (isPressed : bool) :
  buttonState s = BUTTON_DOWN ->
  releaseDebouncePeriod s = 0 ->
  raisesButtonUp s isPressed = false ->
  raisesButtonDown s isPressed = false /\
  buttonState (Button_Tick s isPressed) = BUTTON_DOWN /\
  releaseDebouncePeriod (Button_Tick s isPressed) = 0.
Proof.
  intros Hst Hrp. open_button s. unfold_button.
  destruct ty, isPressed; simpl; split_ifs; intros Hu;
    try discriminate; repeat split.
Qed.

Lemma no_down_before_up (samples : list bool) : forall s : Button,
  buttonState s = BUTTON_DOWN ->
  releaseDebouncePeriod s = 0 ->
  Forall (eq false) (raised raisesButtonUp s samples) ->
  Forall (eq false) (raised raisesButtonDown s samples).
Proof.
  induction samples as [| b rest IH]; intros s Hst Hrp Hu; simpl in *.
  - constructor.
  - inversion Hu as [| x xs Hx Hxs]; subst.
    destruct (no_down_before_up_tick s b Hst Hrp (eq_sym Hx))
      as (Hd & Hst' & Hrp').
    constructor; [congruence | apply IH; assumption].
Qed.

(** Without release debouncing ([releaseDebouncePeriod = 0]) the two edge
    events do alternate: after a tick that raises the button-down event
    no later tick raises it again before some tick raises the button-up
    event. *)
Theorem down_event_needs_up_without_release_debounce
    (s : Button) (isPressed : bool) (samples : list bool) :
  releaseDebouncePeriod s = 0 ->
  raisesButtonDown s isPressed = true ->
  Forall (eq false)
    (raised raisesButtonUp (Button_Tick s isPressed) samples) ->
  Forall (eq false)
    (raised raisesButtonDown (Button_Tick s isPressed) samples).
Proof.
  intros Hrp Hd.
  pose proof (down_tick_holds s isPressed Hd) as Hst.
  destruct (tick_config s isPressed) as (_ & Hrp' & _).
  apply no_down_before_up; [exact Hst | congruence].
Qed.

Lemma down_event_needs_up_without_release_debounce_witness :
  let s := Button_InitMs zeroed 20 0 10 in
  let at_threshold := Button_Run s [true; true] in
  raisesButtonDown at_threshold true = true /\
  Forall (eq false)
    (raised raisesButtonDown (Button_Tick at_threshold true) [true; true; true]).
Proof.
  intros s at_threshold. split; [reflexivity |].
  apply (down_event_needs_up_without_release_debounce
           at_threshold true [true; true; true]);
    [reflexivity | reflexivity | repeat constructor].
Defined.

(** ** Initialisation, continued *)

(** Initialising writes the three periods (when the tick interval is not
    zero), the type and the state, and nothing else: the counters and the
    four flags are as before, so an event that is pending stays pending.
    With a tick interval of zero the periods are as before too. *)
Theorem init_keeps_counters_and_flags
    (self : Button) (pressDebounceMs releaseDebounceMs longPressMs tickMs : Z) :
  let s := Button_InitWithLongPressMs self pressDebounceMs
             releaseDebounceMs longPressMs tickMs in
  buttonState s = BUTTON_UP /\
  flags s = flags self /\
  longPressCounter s = longPressCounter self /\
  debounceCounter s = debounceCounter self /\
  (tickMs = 0 ->
   pressDebouncePeriod s = pressDebouncePeriod self /\
   releaseDebouncePeriod s = releaseDebouncePeriod self /\
   longPressPeriod s = longPressPeriod self).
Proof.
  intros s. subst s.
  split; [apply init_state | split; [apply init_flags |]].
  destruct (init_counters self pressDebounceMs releaseDebounceMs
              longPressMs tickMs) as [H1 H2].
  split; [exact H1 | split; [exact H2 |]].
  apply init_periods_zero_tick.
Qed.

Lemma init_keeps_counters_and_flags_witness :
  let used := Button_Run (Button_InitMs zeroed 0 0 10) [true] in
  let s := Button_InitWithLongPressMs used 50 50 500 0 in
  Button_GetButtonDownEvent s = true /\ pressDebouncePeriod s = 0.
Proof.
  intros used s.
  destruct (init_keeps_counters_and_flags used 50 50 500 0)
    as (_ & Hf & _ & _ & Hp).
  destruct (Hp eq_refl) as (Hpp & _).
  fold s in Hf, Hpp. unfold Button_GetButtonDownEvent.
  rewrite Hf, Hpp. split; reflexivity.
Defined.

(** [Button_InitMs] gives a short-press button with a long-press period of
    zero whenever the tick interval is not zero.  With a tick interval of
    zero the long-press period is as before, and the button is of the
    short-press type exactly when that period is zero: on an instance that
    was a long-press button, [Button_InitMs] with a zero tick interval
    leaves a long-press button. *)
Theorem InitMs_button_type
    (self : Button) (pressDebounceMs releaseDebounceMs tickMs : Z) :
  let s := Button_InitMs self pressDebounceMs releaseDebounceMs tickMs in
  (tickMs <> 0 ->
   longPressPeriod s = 0 /\ buttonType s = SHORT_PRESS_TYPE) /\
  (tickMs = 0 ->
   longPressPeriod s = longPressPeriod self /\
   (buttonType s = SHORT_PRESS_TYPE <-> longPressPeriod self = 0) /\
   (buttonType s = LONG_PRESS_TYPE <-> longPressPeriod self <> 0)).
Proof.
  intros s. subst s. unfold Button_InitMs.
  pose proof (init_type self pressDebounceMs releaseDebounceMs 0 tickMs) as Ht.
  split; intros Hz.
  - destruct (init_periods_nonzero_tick self pressDebounceMs
                releaseDebounceMs 0 tickMs Hz) as (_ & _ & E).
    rewrite Z.quot_0_l in E by exact Hz. change (to_u16 0) with 0 in E.
    rewrite E in Ht. split; [exact E | exact Ht].
  - destruct (init_periods_zero_tick self pressDebounceMs
                releaseDebounceMs 0 tickMs Hz) as (_ & _ & E).
    rewrite E in Ht. split; [exact E |]. rewrite Ht.
    destruct (Z.eqb_spec (longPressPeriod self) 0) as [E0 | E0];
      repeat split; intros; try assumption; try reflexivity;
      try discriminate; contradiction.
Qed.

Lemma InitMs_button_type_witness :
  let long := Button_InitWithLongPressMs zeroed 0 0 30 10 in
  buttonType (Button_InitMs long 0 0 10) = SHORT_PRESS_TYPE /\
  buttonType (Button_InitMs long 0 0 0) = LONG_PRESS_TYPE.
Proof.
  intros long.
  destruct (InitMs_button_type long 0 0 10) as [H1 _].
  destruct (InitMs_button_type long 0 0 0) as [_ H2].
  split.
  - apply H1. discriminate.
  - apply (H2 eq_refl). discriminate.
Defined.

(** Ticks and clears never write the configuration: the three periods and
    the type are those the last initialisation left. *)
Theorem configuration_is_never_written (ops : list Op) : forall s : Button,
  pressDebouncePeriod (exec s ops) = pressDebouncePeriod s /\
  releaseDebouncePeriod (exec s ops) = releaseDebouncePeriod s /\
  longPressPeriod (exec s ops) = longPressPeriod s /\
  buttonType (exec s ops) = buttonType s.
Proof.
  induction ops as [| o ops IH]; intros s.
  - repeat split.
  - change (exec s (o :: ops)) with (exec (apply_op s o) ops).
    destruct (IH (apply_op s o)) as (C1 & C2 & C3 & C4).
    destruct (apply_op_config s o) as (D1 & D2 & D3 & D4).
    rewrite C1, C2, C3, C4, D1, D2, D3, D4. repeat split.
Qed.

(** * Properties of the timer *)

Ltac open_timer t :=
  destruct t as [?p ?c ?cb [?fs ?fa ?fe]]; simpl in *; subst.

Ltac unfold_timer :=
  unfold Timer.apply_op in *;
  unfold Timer.Timer_Tick, Timer.Timer_Start, Timer.Timer_Stop,
    Timer.Timer_InitMs, Timer.Timer_ClearFlag,
    Timer.Timer_SetFinishedCallback, Timer.Timer_IsRunning,
    Timer.Timer_IsFinished, Timer.Timer_GetCount, Timer.Timer_GetPeriod in *.

Lemma Timer_Run_add (a b : nat) : forall t : Timer.Timer,
  Timer.Timer_Run t (a + b) =
    (fst (Timer.Timer_Run (fst (Timer.Timer_Run t a)) b),
     snd (Timer.Timer_Run t a)
       ++ snd (Timer.Timer_Run (fst (Timer.Timer_Run t a)) b)).
Proof.
  induction a as [| a IH]; intros t; simpl.
  - destruct (Timer.Timer_Run t b). reflexivity.
  - destruct (Timer.Timer_Tick t) as [t1 called].
    rewrite IH.
    destruct (Timer.Timer_Run t1 a) as [t2 c2]. simpl.
    destruct (Timer.Timer_Run t2 b) as [t3 c3]. simpl.
    destruct called; reflexivity.
Qed.

Lemma Timer_Run_succ (n : nat) (t : Timer.Timer) :
  Timer.Timer_Run t (S n) =
    (fst (Timer.Timer_Run (fst (Timer.Timer_Tick t)) n),
     Timer_calls (snd (Timer.Timer_Tick t))
       ++ snd (Timer.Timer_Run (fst (Timer.Timer_Tick t)) n)).
Proof.
  simpl. destruct (Timer.Timer_Tick t) as [t1 called]. simpl.
  destruct (Timer.Timer_Run t1 n) as [t2 c2]. simpl.
  destruct called; reflexivity.
Qed.

(** A timer that is neither running nor about to start does nothing. *)
Lemma Timer_idle_tick (t : Timer.Timer) :
  Timer.active (Timer.flags t) = false ->
  Timer.start (Timer.flags t) = false \/ Timer.period t = 0 ->
  Timer.Timer_Tick t = (t, None).
Proof.
  intros Ha Hs. open_timer t. unfold_timer. simpl.
  destruct Hs as [-> | ->]; [reflexivity |].
  rewrite andb_false_r. reflexivity.
Qed.

Lemma Timer_idle_run (n : nat) (t : Timer.Timer) :
  Timer.active (Timer.flags t) = false ->
  Timer.start (Timer.flags t) = false \/ Timer.period t = 0 ->
  Timer.Timer_Run t n = (t, []).
Proof.
  intros Ha Hs. induction n as [| n IH]; simpl.
  - reflexivity.
  - rewrite (Timer_idle_tick t Ha Hs), IH. reflexivity.
Qed.

Lemma Timer_running_tick (t : Timer.Timer) :
  Timer.active (Timer.flags t) = true ->
  Timer.start (Timer.flags t) = false ->
  1 < Timer.count t < UINT16_MODULUS ->
  Timer.Timer_Tick t = (Timer.set_count t (Timer.count t - 1), None).
Proof.
  intros Ha Hs Hc. open_timer t. unfold_timer. simpl.
  rewrite to_u16_small by (unfold u16; lia).
  destruct (Z.eqb_spec (c - 1) 0); [lia | reflexivity].
Qed.

Lemma Timer_last_tick (t : Timer.Timer) :
  Timer.active (Timer.flags t) = true ->
  Timer.start (Timer.flags t) = false ->
  Timer.count t = 1 ->
  Timer.Timer_Tick t =
    (Timer.mkTimer (Timer.period t) 0 (Timer.timerCallbackFunc t)
       (Timer.mkFlags false false true),
     Timer.timerCallbackFunc t).
Proof.
  intros Ha Hs Hc. open_timer t. unfold_timer. simpl.
  destruct cb; reflexivity.
Qed.

Lemma Timer_running_run (k : nat) : forall t : Timer.Timer,
  Timer.active (Timer.flags t) = true ->
  Timer.start (Timer.flags t) = false ->
  Z.of_nat k < Timer.count t < UINT16_MODULUS ->
  Timer.Timer_Run t k = (Timer.set_count t (Timer.count t - Z.of_nat k), []).
Proof.
  induction k as [| k IH]; intros t Ha Hs Hc.
  - simpl. rewrite Z.sub_0_r. destruct t; reflexivity.
  - rewrite Nat2Z.inj_succ in *.
    simpl Timer.Timer_Run. rewrite Timer_running_tick by (assumption || lia).
    rewrite IH by (simpl; assumption || lia).
    destruct t; simpl. unfold Timer.set_count; simpl.
    do 2 f_equal. lia.
Qed.

(** A start request is served by the next tick, which loads the count with
    the period before counting, whatever the timer was doing. *)
Lemma Timer_started_tick (t : Timer.Timer) :
  Timer.period t <> 0 ->
  Timer.Timer_Tick (Timer.Timer_Start t) =
  Timer.Timer_Tick
    (Timer.mkTimer (Timer.period t) (Timer.period t)
       (Timer.timerCallbackFunc t)
       (Timer.mkFlags false true (Timer.expired (Timer.flags t)))).
Proof.
  intros Hp. open_timer t. unfold_timer. simpl.
  destruct (Z.eqb_spec p 0); [contradiction |]. simpl.
  destruct (Z.eqb_spec p 0); [contradiction |]. simpl.
  reflexivity.
Qed.

(** The countdown.  After [Timer_Start] on a timer with a period of
    [P >= 1] ticks, whatever it was doing before: after [k] ticks,
    [1 <= k < P], the timer is running with the count at [P - k], the
    expired flag as it was, and no callback has been called; after [P]
    ticks or more it is stopped with the count at zero and the expired
    flag set, and the callback, if one is set, has been called once. *)
Theorem Timer_countdown (t : Timer.Timer) (k : nat) :
  u16 (Timer.period t) ->
  Timer.period t <> 0 ->
  (1 <= k)%nat ->
  (Z.of_nat k < Timer.period t ->
   Timer.Timer_Run (Timer.Timer_Start t) k =
     (Timer.mkTimer (Timer.period t) (Timer.period t - Z.of_nat k)
        (Timer.timerCallbackFunc t)
        (Timer.mkFlags false true (Timer.expired (Timer.flags t))),
      [])) /\
  (Timer.period t <= Z.of_nat k ->
   Timer.Timer_Run (Timer.Timer_Start t) k =
     (Timer.mkTimer (Timer.period t) 0 (Timer.timerCallbackFunc t)
        (Timer.mkFlags false false true),
      Timer_calls (Timer.timerCallbackFunc t))).
Proof.
  intros Hu Hp Hk. unfold u16 in Hu.
  destruct k as [| k]; [lia |].
  set (loaded := Timer.mkTimer (Timer.period t) (Timer.period t)
                   (Timer.timerCallbackFunc t)
                   (Timer.mkFlags false true (Timer.expired (Timer.flags t)))).
  assert (E : Timer.Timer_Run (Timer.Timer_Start t) (S k)
              = Timer.Timer_Run loaded (S k)).
  { simpl. rewrite (Timer_started_tick t Hp). reflexivity. }
  rewrite E. split; intros Hlt.
  - rewrite Timer_running_run by (simpl; reflexivity || lia). reflexivity.
  - set (a := Z.to_nat (Timer.period t - 1)).
    assert (Hr : exists r : nat, S k = (a + S r)%nat)
      by (exists (S k - a - 1)%nat; lia).
    destruct Hr as [r ->].
    rewrite Timer_Run_add.
    rewrite (Timer_running_run a loaded) by (simpl; reflexivity || lia).
    cbn [fst snd].
    rewrite Timer_Run_succ.
    rewrite Timer_last_tick by (simpl; reflexivity || lia).
    cbn [fst snd].
    rewrite Timer_idle_run by (simpl; auto).
    simpl. rewrite app_nil_r. reflexivity.
Qed.

Lemma Timer_countdown_witness :
  let t := Timer.Timer_SetFinishedCallback
             (Timer.Timer_InitMs Timer.zeroed 30 10) (Some 7%nat) in
  Timer.Timer_IsRunning (fst (Timer.Timer_Run (Timer.Timer_Start t) 2)) = true /\
  Timer.Timer_Run (Timer.Timer_Start t) 5 =
    (Timer.mkTimer 3 0 (Some 7%nat) (Timer.mkFlags false false true),
     [7%nat]).
Proof.
  intros t.
  assert (Hu : u16 (Timer.period t)) by (vm_compute; intuition discriminate).
  assert (Hp : Timer.period t <> 0) by (vm_compute; discriminate).
  destruct (Timer_countdown t 2 Hu Hp) as [H2 _]; [lia |].
  destruct (Timer_countdown t 5 Hu Hp) as [_ H5]; [lia |].
  split.
  - rewrite H2 by (vm_compute; reflexivity). reflexivity.
  - apply H5. vm_compute. discriminate.
Defined.

(** [Timer_InitMs] writes the period only, as the truncated quotient of
    the two durations, and with a tick interval of zero it writes nothing
    at all; a timer that is running goes on with the count it has. *)
Theorem Timer_InitMs_period (t : Timer.Timer) (periodMs tickMs : Z) :
  u16 periodMs -> u16 tickMs ->
  (0 < tickMs ->
   Timer.Timer_InitMs t periodMs tickMs =
     Timer.set_period t (periodMs / tickMs)) /\
  (tickMs = 0 -> Timer.Timer_InitMs t periodMs tickMs = t) /\
  Timer.count (Timer.Timer_InitMs t periodMs tickMs) = Timer.count t /\
  Timer.flags (Timer.Timer_InitMs t periodMs tickMs) = Timer.flags t /\
  Timer.timerCallbackFunc (Timer.Timer_InitMs t periodMs tickMs)
    = Timer.timerCallbackFunc t.
Proof.
  intros Hp Ht. unfold Timer.Timer_InitMs.
  split; [| split].
  - intros Hpos. destruct (Z.eqb_spec tickMs 0); [lia |]. simpl.
    rewrite u16_quot by assumption. reflexivity.
  - intros ->. reflexivity.
  - destruct (negb (tickMs =? 0)); repeat split.
Qed.

Lemma Timer_InitMs_period_witness :
  Timer.Timer_InitMs Timer.zeroed 1005 10 = Timer.set_period Timer.zeroed 100.
Proof.
  assert (H1 : u16 1005) by (vm_compute; intuition discriminate).
  assert (H2 : u16 10) by (vm_compute; intuition discriminate).
  destruct (Timer_InitMs_period Timer.zeroed 1005 10 H1 H2) as [H _].
  apply H. reflexivity.
Defined.

(** [Timer_Stop] cancels a countdown and a pending start request: no
    number of ticks after it changes the timer or calls the callback.  It
    leaves the count where it stopped and the expired flag as it was. *)
Theorem Timer_Stop_cancels (t : Timer.Timer) (n : nat) :
  Timer.Timer_Run (Timer.Timer_Stop t) n = (Timer.Timer_Stop t, []) /\
  Timer.Timer_IsRunning (Timer.Timer_Stop t) = false /\
  Timer.Timer_GetCount (Timer.Timer_Stop t) = Timer.Timer_GetCount t /\
  Timer.Timer_IsFinished (Timer.Timer_Stop t) = Timer.Timer_IsFinished t.
Proof.
  split; [| repeat split].
  apply Timer_idle_run; [reflexivity | left; reflexivity].
Qed.

(** A timer with a period of zero cannot be started: [Timer_Start] does
    nothing, and even with a start request pending (from before the period
    became zero) ticks do nothing unless the timer is already running. *)
Theorem Timer_zero_period_never_starts (t : Timer.Timer) (n : nat) :
  Timer.period t = 0 ->
  Timer.Timer_Start t = t /\
  (Timer.active (Timer.flags t) = false ->
   Timer.Timer_Run t n = (t, [])).
Proof.
  intros Hp. split.
  - unfold Timer.Timer_Start. rewrite Hp. reflexivity.
  - intros Ha. apply Timer_idle_run; [exact Ha | right; exact Hp].
Qed.

Lemma Timer_zero_period_never_starts_witness :
  let t := Timer.Timer_InitMs (Timer.Timer_Start
             (Timer.Timer_InitMs Timer.zeroed 30 10)) 5 10 in
  Timer.start (Timer.flags t) = true /\
  Timer.Timer_Run t 4 = (t, []).
Proof.
  intros t.
  destruct (Timer_zero_period_never_starts t 4 eq_refl) as [_ H].
  split; [reflexivity | apply H; reflexivity].
Defined.

(** The expired flag is sticky: among the operations on a timer only
    [Timer_ClearFlag] lowers it, so it survives ticks, new start requests,
    a stop and a new period. *)
Theorem Timer_expired_is_sticky (t : Timer.Timer) (o : Timer.Op) :
  Timer.Timer_IsFinished t = true ->
  (Timer.Timer_IsFinished (Timer.apply_op t o) = false <->
   o = Timer.OpClearFlag) /\
  (forall ops : list Timer.Op,
     ~ In Timer.OpClearFlag ops ->
     Timer.Timer_IsFinished (Timer.exec t ops) = true).
Proof.
  assert (Step : forall (t0 : Timer.Timer) (o0 : Timer.Op),
            Timer.Timer_IsFinished t0 = true ->
            o0 <> Timer.OpClearFlag ->
            Timer.Timer_IsFinished (Timer.apply_op t0 o0) = true).
  { intros t0 o0 H0 Hne. open_timer t0. unfold_timer. simpl in *.
    destruct fe; [| discriminate].
    destruct o0 as [pm tm | | | | | f]; simpl; try contradiction;
      try reflexivity.
    - destruct (negb (tm =? 0)); reflexivity.
    - destruct (negb (p =? 0)); reflexivity.
    - destruct (fs && negb (p =? 0)); simpl.
      + destruct (to_u16 (p - 1) =? 0); simpl; [destruct cb |]; reflexivity.
      + destruct fa; simpl; [| reflexivity].
        destruct (to_u16 (c - 1) =? 0); simpl; [destruct cb |]; reflexivity. }
  intros Hf. split; [split |].
  - intros Hlow.
    destruct o as [pm tm | | | | | f]; try reflexivity;
      rewrite Step in Hlow by (assumption || discriminate); discriminate.
  - intros ->. reflexivity.
  - intros ops. revert t Hf.
    induction ops as [| o1 ops IH]; intros t Hf Hin; simpl.
    + exact Hf.
    + apply IH.
      * apply Step; [exact Hf |]. intros ->. apply Hin. left. reflexivity.
      * intros Hin'. apply Hin. right. exact Hin'.
Qed.

Lemma Timer_expired_is_sticky_witness :
  let t := fst (Timer.Timer_Run
                  (Timer.Timer_Start (Timer.Timer_InitMs Timer.zeroed 20 10)) 2) in
  Timer.Timer_IsFinished t = true /\
  Timer.Timer_IsFinished
    (Timer.exec t [Timer.OpStart; Timer.OpTick; Timer.OpStop;
                   Timer.OpInitMs 50 10; Timer.OpTick]) = true.
Proof.
  intros t.
  destruct (Timer_expired_is_sticky t Timer.OpTick eq_refl) as [_ H].
  split; [reflexivity | apply H].
  simpl. intuition discriminate.
Defined.

Lemma Timer_apply_op_safe (t : Timer.Timer) (o : Timer.Op) :
  Timer.wf t ->
  (Timer.active (Timer.flags t) = true -> 1 <= Timer.count t) ->
  Timer.wf (Timer.apply_op t o) /\
  (Timer.active (Timer.flags (Timer.apply_op t o)) = true ->
   1 <= Timer.count (Timer.apply_op t o)).
Proof.
  unfold Timer.wf, u16. intros [Hp Hc] Hinv.
  pose proof (to_u16_range (Timer.count t - 1)) as Rc.
  pose proof (to_u16_range (Timer.period t - 1)) as Rp.
  unfold u16 in Rc, Rp.
  open_timer t. unfold_timer.
  destruct o as [pm tm | | | | | f]; simpl.
  - pose proof (to_u16_range (Z.quot pm tm)) as Rq. unfold u16 in Rq.
    destruct (negb (tm =? 0)); simpl; auto.
  - destruct (negb (p =? 0)); simpl; auto.
  - split; [auto | discriminate].
  - destruct fs; simpl.
    + destruct (Z.eqb_spec p 0); simpl.
      * destruct fa; simpl; [| split; [auto | discriminate]].
        destruct (Z.eqb_spec (to_u16 (c - 1)) 0); simpl;
          [destruct cb; simpl; split; try lia; discriminate |].
        split; [lia | intros _; lia].
      * destruct (Z.eqb_spec (to_u16 (p - 1)) 0); simpl;
          [destruct cb; simpl; split; try lia; discriminate |].
        split; [lia | intros _; lia].
    + destruct fa; simpl; [| split; [auto | discriminate]].
      destruct (Z.eqb_spec (to_u16 (c - 1)) 0); simpl;
        [destruct cb; simpl; split; try lia; discriminate |].
      split; [lia | intros _; lia].
  - auto.
  - auto.
Qed.

(** From a timer that is not running, whatever the caller does with the
    six operations, a running timer has a count of at least one: the
    decrement in [Timer_Tick] never wraps below zero, and a tick of a
    running timer with no start request pending takes exactly one off the
    count. *)
Theorem Timer_count_never_wraps (ops : list Timer.Op) : forall t : Timer.Timer,
  Timer.wf t ->
  Timer.active (Timer.flags t) = false ->
  Timer.wf (Timer.exec t ops) /\
  (Timer.active (Timer.flags (Timer.exec t ops)) = true ->
   1 <= Timer.count (Timer.exec t ops) /\
   (Timer.start (Timer.flags (Timer.exec t ops)) = false ->
    Timer.count (fst (Timer.Timer_Tick (Timer.exec t ops)))
      = Timer.count (Timer.exec t ops) - 1)).
Proof.
  assert (Gen : forall (l : list Timer.Op) (t0 : Timer.Timer),
            Timer.wf t0 ->
            (Timer.active (Timer.flags t0) = true -> 1 <= Timer.count t0) ->
            Timer.wf (Timer.exec t0 l) /\
            (Timer.active (Timer.flags (Timer.exec t0 l)) = true ->
             1 <= Timer.count (Timer.exec t0 l))).
  { induction l as [| o l IH]; intros t0 Hwf Hinv.
    - split; assumption.
    - change (Timer.exec t0 (o :: l)) with (Timer.exec (Timer.apply_op t0 o) l).
      destruct (Timer_apply_op_safe t0 o Hwf Hinv) as [W I].
      apply IH; assumption. }
  intros t Hwf Ha.
  destruct (Gen ops t Hwf) as [W I]; [rewrite Ha; discriminate |].
  split; [exact W |]. intros Hact. split; [auto |]. intros Hs.
  specialize (I Hact). destruct W as [_ Hc]. unfold u16 in Hc.
  set (r := Timer.exec t ops) in *. clearbody r.
  open_timer r. unfold_timer. simpl.
  rewrite to_u16_small by (unfold u16; lia).
  destruct (c - 1 =? 0); [destruct cb |]; reflexivity.
Qed.

Lemma Timer_count_never_wraps_witness :
  let r := Timer.exec Timer.zeroed
             [Timer.OpInitMs 30 10; Timer.OpStart; Timer.OpTick] in
  1 <= Timer.count r /\
  Timer.count (fst (Timer.Timer_Tick r)) = Timer.count r - 1.
Proof.
  intros r.
  assert (Hwf : Timer.wf Timer.zeroed) by (vm_compute; intuition discriminate).
  destruct (Timer_count_never_wraps
              [Timer.OpInitMs 30 10; Timer.OpStart; Timer.OpTick]
              Timer.zeroed Hwf eq_refl) as [_ H].
  destruct (H eq_refl) as [H1 H2].
  split; [exact H1 | apply H2; reflexivity].
Defined.

(** * Properties of the ring buffer *)

Lemma list_store_some (a : list Z) : forall (i : nat) (v : Z),
  (i < length a)%nat ->
  exists a', Buffer.list_store a i v = Some a' /\
             length a' = length a /\
             nth_error a' i = Some v /\
             (forall j : nat, j <> i -> nth_error a' j = nth_error a j).
Proof.
  induction a as [| x a IH]; intros i v Hi; simpl in Hi; [lia |].
  destruct i as [| i]; simpl.
  - exists (v :: a). repeat split. intros [| j] Hj; [contradiction | reflexivity].
  - destruct (IH i v) as (a' & E & L & N & O); [lia |].
    rewrite E. exists (x :: a'). simpl. repeat split; auto.
    intros [| j] Hj; simpl; [reflexivity | apply O; congruence].
Qed.

Lemma Buffer_store_some (a : list Z) (i v : Z) :
  0 <= i < Z.of_nat (length a) ->
  exists a', Buffer.store a i v = Some a' /\
             length a' = length a /\
             Buffer.load a' i = Some v /\
             (forall j : Z, 0 <= j -> j <> i ->
                            Buffer.load a' j = Buffer.load a j).
Proof.
  intros Hi. unfold Buffer.store, Buffer.load.
  destruct (Z.ltb_spec i 0); [lia |].
  destruct (list_store_some a (Z.to_nat i) v) as (a' & E & L & N & O); [lia |].
  exists a'. repeat split; auto.
  intros j Hj Hne. destruct (Z.ltb_spec j 0); [lia |].
  apply O. intros Heq. apply Hne. lia.
Qed.

Lemma Buffer_load_some (a : list Z) (i : Z) :
  0 <= i < Z.of_nat (length a) -> exists d, Buffer.load a i = Some d.
Proof.
  intros Hi. unfold Buffer.load. destruct (Z.ltb_spec i 0); [lia |].
  destruct (nth_error a (Z.to_nat i)) as [d |] eqn:E; [eauto |].
  apply nth_error_None in E. lia.
Qed.

(** Inside the ring the macro is the successor modulo the size, and its
    value fits a [uint8_t]. *)
Lemma CircularIncrement_in_ring (i size : Z) :
  0 <= i < size -> size < Buffer.UINT8_MODULUS ->
  Buffer.to_u8 (Buffer.CircularIncrement i size)
    = Buffer.CircularIncrement i size /\
  Buffer.CircularIncrement i size = (i + 1) mod size /\
  0 <= Buffer.CircularIncrement i size < size.
Proof.
  unfold Buffer.CircularIncrement, Buffer.to_u8, Buffer.UINT8_MODULUS.
  intros Hi Hs.
  destruct (Z.eqb_spec i (size - 1)) as [E | E].
  - subst i. replace (size - 1 + 1) with size by lia.
    rewrite Z.mod_same by lia. repeat split; lia || reflexivity.
  - rewrite (Z.mod_small (i + 1) size) by lia.
    rewrite Z.mod_small by lia. repeat split; lia.
Qed.

Ltac open_buffer b :=
  destruct b as [?cnt ?ovf ?ovw [?arr ?sz ?hd ?tl]]; simpl in *.

(** What [Buffer_WriteChar] does to a buffer whose indices are in bounds,
    in each of its three branches. *)
Lemma Buffer_WriteChar_in_bounds (b : Buffer.Buffer) (c : Z) :
  Buffer.in_bounds b ->
  exists b' : Buffer.Buffer,
    Buffer.Buffer_WriteChar b c = Some b' /\
    Buffer.in_bounds b' /\
    Buffer.tail (Buffer.private b') = Buffer.tail (Buffer.private b) /\
    Buffer.size (Buffer.private b') = Buffer.size (Buffer.private b) /\
    Buffer.enableOverwrite b' = Buffer.enableOverwrite b /\
    length (Buffer.buffer (Buffer.private b'))
      = length (Buffer.buffer (Buffer.private b)).
Proof.
  unfold Buffer.in_bounds. intros (Hlen & Hsz & Hh & Ht).
  destruct (CircularIncrement_in_ring _ _ Hh Hsz) as (E8 & _ & Hci).
  destruct (Buffer_store_some (Buffer.buffer (Buffer.private b))
              (Buffer.head (Buffer.private b)) c) as (a' & Es & El & _);
    [lia |].
  unfold Buffer.Buffer_WriteChar. rewrite E8, Es.
  open_buffer b.
  destruct (negb (Buffer.CircularIncrement hd sz =? tl)); simpl.
  - eexists. split; [reflexivity |]. simpl. rewrite El. repeat split; lia.
  - destruct ovw; simpl.
    + eexists. split; [reflexivity |]. simpl. rewrite El. repeat split; lia.
    + destruct ovf; simpl; eexists; (split; [reflexivity |]); simpl;
        rewrite ?El; repeat split; lia.
Qed.

Lemma Buffer_ReadChar_in_bounds (b : Buffer.Buffer) :
  Buffer.in_bounds b ->
  exists (d : Z) (b' : Buffer.Buffer),
    Buffer.Buffer_ReadChar b = Some (d, b') /\
    Buffer.private b' = Buffer.private b /\
    Buffer.enableOverwrite b' = Buffer.enableOverwrite b.
Proof.
  unfold Buffer.in_bounds. intros (Hlen & Hsz & Hh & Ht).
  destruct (Buffer_load_some (Buffer.buffer (Buffer.private b))
              (Buffer.tail (Buffer.private b))) as [d Ed]; [lia |].
  unfold Buffer.Buffer_ReadChar. rewrite Ed.
  destruct (negb (Buffer.head (Buffer.private b)
                  =? Buffer.tail (Buffer.private b)));
    do 2 eexists; (split; [reflexivity |]); split; reflexivity.
Qed.

Lemma Buffer_in_bounds_private (b b' : Buffer.Buffer) :
  Buffer.private b' = Buffer.private b ->
  Buffer.in_bounds b -> Buffer.in_bounds b'.
Proof.
  unfold Buffer.in_bounds. intros ->. tauto.
Qed.

(** Memory safety.  If the announced size is at most 255 and at most the
    length of the array, and [head] and [tail] are below it, then no
    sequence of writes, reads and overflow queries accesses the array
    outside its bounds, and the indices stay below the size; [tail], the
    size and the overwrite switch are never written. *)
Theorem Buffer_accesses_stay_in_bounds (ops : list Buffer.Op) :
  forall b : Buffer.Buffer,
  Buffer.in_bounds b ->
  exists b' : Buffer.Buffer,
    Buffer.exec b ops = Some b' /\
    Buffer.in_bounds b' /\
    Buffer.tail (Buffer.private b') = Buffer.tail (Buffer.private b) /\
    Buffer.size (Buffer.private b') = Buffer.size (Buffer.private b) /\
    Buffer.enableOverwrite b' = Buffer.enableOverwrite b.
Proof.
  induction ops as [| o ops IH]; intros b Hb.
  - exists b. simpl. tauto.
  - assert (Step : exists b1 : Buffer.Buffer,
              Buffer.apply_op b o = Some b1 /\ Buffer.in_bounds b1 /\
              Buffer.tail (Buffer.private b1) = Buffer.tail (Buffer.private b) /\
              Buffer.size (Buffer.private b1) = Buffer.size (Buffer.private b) /\
              Buffer.enableOverwrite b1 = Buffer.enableOverwrite b).
    { destruct o as [c | |]; simpl.
      - destruct (Buffer_WriteChar_in_bounds b c Hb)
          as (b1 & E & I & T & S & W & _).
        exists b1. tauto.
      - destruct (Buffer_ReadChar_in_bounds b Hb) as (d & b1 & E & P & W).
        rewrite E. exists b1. rewrite P.
        pose proof (Buffer_in_bounds_private b b1 P Hb). tauto.
      - eexists. split; [reflexivity |]. simpl. tauto. }
    destruct Step as (b1 & E1 & I1 & T1 & S1 & W1).
    destruct (IH b1 I1) as (b' & E' & I' & T' & S' & W').
    exists b'. simpl. rewrite E1, T', S', W'. tauto.
Qed.

Lemma Buffer_accesses_stay_in_bounds_witness :
  let b := Buffer.Buffer_Init
             (Buffer.mkBuffer 0 false false (Buffer.mkPrivate [] 0 0 0))
             [0; 0; 0; 0] 4 in
  exists b' : Buffer.Buffer,
    Buffer.exec b (Buffer.writes [10; 11; 12; 13; 14]
                     ++ [Buffer.OpReadChar; Buffer.OpDidOverflow])
      = Some b' /\
    Buffer.in_bounds b'.
Proof.
  intros b.
  assert (Hb : Buffer.in_bounds b).
  { unfold Buffer.in_bounds, Buffer.UINT8_MODULUS. simpl. lia. }
  destruct (Buffer_accesses_stay_in_bounds
              (Buffer.writes [10; 11; 12; 13; 14]
                 ++ [Buffer.OpReadChar; Buffer.OpDidOverflow]) b Hb)
    as (b' & E & I & _).
  exists b'. split; [exact E | exact I].
Defined.

Lemma Buffer_ReadChar_nonempty (b : Buffer.Buffer) (d : Z) :
  Buffer.head (Buffer.private b) <> Buffer.tail (Buffer.private b) ->
  Buffer.load (Buffer.buffer (Buffer.private b))
              (Buffer.tail (Buffer.private b)) = Some d ->
  Buffer.Buffer_ReadChar b =
    Some (d, Buffer.mkBuffer (Buffer.to_u8 (Buffer.count b - 1)) false
               (Buffer.enableOverwrite b) (Buffer.private b)).
Proof.
  intros Hne Hl. unfold Buffer.Buffer_ReadChar. rewrite Hl.
  destruct (Z.eqb_spec (Buffer.head (Buffer.private b))
                       (Buffer.tail (Buffer.private b)));
    [contradiction | reflexivity].
Qed.

(** Reading does not consume.  [Buffer_ReadChar] writes neither [tail]
    nor [head] nor the array, so on a buffer with [head <> tail] every
    read returns the byte at [tail] again, while the count goes down by
    one per read and wraps from 0 to 255; on a buffer with [head = tail] a
    read returns 0 and changes nothing. *)
Theorem Buffer_reads_return_the_same_byte
    (b : Buffer.Buffer) (d : Z) (n : nat) :
  (Buffer.head (Buffer.private b) <> Buffer.tail (Buffer.private b) ->
   Buffer.load (Buffer.buffer (Buffer.private b))
               (Buffer.tail (Buffer.private b)) = Some d ->
   Buffer.Buffer_ReadChars b (S n) =
     Some (repeat d (S n),
           Buffer.mkBuffer (Buffer.to_u8 (Buffer.count b - Z.of_nat (S n)))
             false (Buffer.enableOverwrite b) (Buffer.private b))) /\
  (Buffer.head (Buffer.private b) = Buffer.tail (Buffer.private b) ->
   Buffer.Buffer_ReadChars b n = Some (repeat 0 n, b)).
Proof.
  split.
  - intros Hne Hl. revert b Hne Hl.
    induction n as [| n IH]; intros b Hne Hl.
    + simpl. rewrite (Buffer_ReadChar_nonempty b d Hne Hl). reflexivity.
    + change (Buffer.Buffer_ReadChars b (S (S n)))
        with (match Buffer.Buffer_ReadChar b with
              | Some (d0, self) =>
                  match Buffer.Buffer_ReadChars self (S n) with
                  | Some (ds, self0) => Some (d0 :: ds, self0)
                  | None => None
                  end
              | None => None
              end).
      rewrite (Buffer_ReadChar_nonempty b d Hne Hl).
      rewrite IH by (simpl; assumption).
      simpl Buffer.count. simpl Buffer.enableOverwrite. simpl Buffer.private.
      replace (Buffer.count b - 1) with (Buffer.count b - 1 - 0) by lia.
      replace (Buffer.to_u8 (Buffer.to_u8 (Buffer.count b - 1 - 0)
                             - Z.of_nat (S n)))
        with (Buffer.to_u8 (Buffer.count b - Z.of_nat (S (S n)))).
      * reflexivity.
      * unfold Buffer.to_u8. rewrite Zminus_mod_idemp_l. f_equal. lia.
  - intros Heq. induction n as [| n IH]; simpl; [reflexivity |].
    unfold Buffer.Buffer_ReadChar. rewrite Heq, Z.eqb_refl. simpl.
    rewrite IH. reflexivity.
Qed.

Lemma Buffer_reads_return_the_same_byte_witness :
  let b := Buffer.mkBuffer 2 false false
             (Buffer.mkPrivate [65; 66; 0; 0] 4 2 0) in
  Buffer.Buffer_ReadChars b 3 =
    Some ([65; 65; 65],
          Buffer.mkBuffer 255 false false
            (Buffer.mkPrivate [65; 66; 0; 0] 4 2 0)).
Proof.
  intros b.
  destruct (Buffer_reads_return_the_same_byte b 65 2) as [H _].
  apply H; [discriminate | reflexivity].
Defined.

Lemma Buffer_IsFull_spec (b : Buffer.Buffer) :
  Buffer.in_bounds b ->
  (Buffer.Buffer_IsFull b = true <->
   Buffer.CircularIncrement (Buffer.head (Buffer.private b))
                            (Buffer.size (Buffer.private b))
     = Buffer.tail (Buffer.private b)).
Proof.
  unfold Buffer.in_bounds. intros (_ & Hsz & Hh & _).
  destruct (CircularIncrement_in_ring _ _ Hh Hsz) as (E8 & _).
  unfold Buffer.Buffer_IsFull. rewrite E8.
  destruct (Z.eqb_spec
              (Buffer.CircularIncrement (Buffer.head (Buffer.private b))
                                        (Buffer.size (Buffer.private b)))
              (Buffer.tail (Buffer.private b))); split; auto; discriminate.
Qed.

(** In overwrite mode a write to a full buffer stores the byte and moves
    [head] onto [tail], which is left where it is: the buffer then reads
    as empty ([Buffer_ReadChar] returns 0 and changes nothing) although the
    count is as before; the overflow flag is set. *)
Theorem Buffer_overwrite_when_full_reads_empty (b : Buffer.Buffer) (c : Z) :
  Buffer.in_bounds b ->
  Buffer.enableOverwrite b = true ->
  Buffer.Buffer_IsFull b = true ->
  exists b' : Buffer.Buffer,
    Buffer.Buffer_WriteChar b c = Some b' /\
    Buffer.load (Buffer.buffer (Buffer.private b'))
                (Buffer.head (Buffer.private b)) = Some c /\
    Buffer.head (Buffer.private b') = Buffer.tail (Buffer.private b) /\
    Buffer.tail (Buffer.private b') = Buffer.tail (Buffer.private b) /\
    Buffer.count b' = Buffer.count b /\
    Buffer.overflow b' = true /\
    Buffer.Buffer_ReadChar b' = Some (0, b').
Proof.
  intros Hb Hw Hfull.
  pose proof (proj1 (Buffer_IsFull_spec b Hb) Hfull) as Hci.
  destruct Hb as (Hlen & Hsz & Hh & Ht).
  destruct (CircularIncrement_in_ring _ _ Hh Hsz) as (E8 & _).
  destruct (Buffer_store_some (Buffer.buffer (Buffer.private b))
              (Buffer.head (Buffer.private b)) c) as (a' & Es & El & Ld & _);
    [lia |].
  unfold Buffer.Buffer_WriteChar. rewrite E8, Hci, Z.eqb_refl, Hw, Es. simpl.
  eexists. split; [reflexivity |]. simpl.
  repeat split; try assumption.
  unfold Buffer.Buffer_ReadChar. simpl. rewrite Z.eqb_refl. reflexivity.
Qed.

Lemma Buffer_overwrite_when_full_reads_empty_witness :
  let b := Buffer.mkBuffer 2 false true
             (Buffer.mkPrivate [65; 66; 0] 3 2 0) in
  exists b' : Buffer.Buffer,
    Buffer.Buffer_WriteChar b 67 = Some b' /\
    Buffer.Buffer_ReadChar b' = Some (0, b').
Proof.
  intros b.
  assert (Hb : Buffer.in_bounds b).
  { unfold Buffer.in_bounds, Buffer.UINT8_MODULUS. simpl. lia. }
  destruct (Buffer_overwrite_when_full_reads_empty b 67 Hb eq_refl eq_refl)
    as (b' & E & _ & _ & _ & _ & _ & R).
  exists b'. split; [exact E | exact R].
Defined.

(** What a write does when the buffer is full and overwriting is off: the
    indices and the count stay, the overflow flag is set, and the byte goes
    into the free slot at [head] only if the flag was not set before. *)
Lemma Buffer_WriteChar_full (b : Buffer.Buffer) (c : Z) :
  Buffer.in_bounds b ->
  Buffer.enableOverwrite b = false ->
  Buffer.Buffer_IsFull b = true ->
  exists b' : Buffer.Buffer,
    Buffer.Buffer_WriteChar b c = Some b' /\
    Buffer.in_bounds b' /\
    Buffer.enableOverwrite b' = false /\
    Buffer.head (Buffer.private b') = Buffer.head (Buffer.private b) /\
    Buffer.tail (Buffer.private b') = Buffer.tail (Buffer.private b) /\
    Buffer.size (Buffer.private b') = Buffer.size (Buffer.private b) /\
    Buffer.count b' = Buffer.count b /\
    Buffer.overflow b' = true /\
    (Buffer.overflow b = true ->
     Buffer.buffer (Buffer.private b') = Buffer.buffer (Buffer.private b)) /\
    (forall j : Z, 0 <= j -> j <> Buffer.head (Buffer.private b) ->
       Buffer.load (Buffer.buffer (Buffer.private b')) j
         = Buffer.load (Buffer.buffer (Buffer.private b)) j).
Proof.
  intros Hb Hw Hfull.
  pose proof (proj1 (Buffer_IsFull_spec b Hb) Hfull) as Hci.
  destruct Hb as (Hlen & Hsz & Hh & Ht).
  destruct (CircularIncrement_in_ring _ _ Hh Hsz) as (E8 & _).
  destruct (Buffer_store_some (Buffer.buffer (Buffer.private b))
              (Buffer.head (Buffer.private b)) c) as (a' & Es & El & _ & Lo);
    [lia |].
  unfold Buffer.Buffer_WriteChar, Buffer.in_bounds.
  rewrite E8, Hci, Z.eqb_refl, Hw, Es. simpl.
  destruct (Buffer.overflow b); simpl;
    eexists; (split; [reflexivity |]); simpl; rewrite ?El;
    repeat split; auto; try lia; discriminate.
Qed.

Lemma Buffer_IsFull_private (b b' : Buffer.Buffer) :
  Buffer.head (Buffer.private b') = Buffer.head (Buffer.private b) ->
  Buffer.tail (Buffer.private b') = Buffer.tail (Buffer.private b) ->
  Buffer.size (Buffer.private b') = Buffer.size (Buffer.private b) ->
  Buffer.Buffer_IsFull b' = Buffer.Buffer_IsFull b.
Proof.
  unfold Buffer.Buffer_IsFull. intros -> -> ->. reflexivity.
Qed.

(** With overwriting off, a buffer that is full stays full for good:
    reads do not move [tail], so no sequence of writes, reads and overflow
    queries moves [head] again, makes room, or raises the count. *)
Theorem Buffer_full_stays_full (ops : list Buffer.Op) :
  forall b : Buffer.Buffer,
  Buffer.in_bounds b ->
  Buffer.enableOverwrite b = false ->
  Buffer.Buffer_IsFull b = true ->
  exists b' : Buffer.Buffer,
    Buffer.exec b ops = Some b' /\
    Buffer.Buffer_IsFull b' = true /\
    Buffer.head (Buffer.private b') = Buffer.head (Buffer.private b) /\
    Buffer.tail (Buffer.private b') = Buffer.tail (Buffer.private b) /\
    (Forall (fun o => o <> Buffer.OpReadChar) ops ->
     Buffer.count b' = Buffer.count b).
Proof.
  induction ops as [| o ops IH]; intros b Hb Hw Hfull.
  - exists b. simpl. tauto.
  - assert (Step : exists b1 : Buffer.Buffer,
              Buffer.apply_op b o = Some b1 /\ Buffer.in_bounds b1 /\
              Buffer.enableOverwrite b1 = false /\
              Buffer.Buffer_IsFull b1 = true /\
              Buffer.head (Buffer.private b1) = Buffer.head (Buffer.private b) /\
              Buffer.tail (Buffer.private b1) = Buffer.tail (Buffer.private b) /\
              (o <> Buffer.OpReadChar -> Buffer.count b1 = Buffer.count b)).
    { destruct o as [c | |]; simpl.
      - destruct (Buffer_WriteChar_full b c Hb Hw Hfull)
          as (b1 & E & I & W & H & T & S & C & _).
        exists b1. rewrite (Buffer_IsFull_private b b1 H T S). tauto.
      - destruct (Buffer_ReadChar_in_bounds b Hb) as (d & b1 & E & P & W).
        rewrite E. exists b1.
        pose proof (Buffer_in_bounds_private b b1 P Hb).
        rewrite (Buffer_IsFull_private b b1) by (rewrite P; reflexivity).
        rewrite P, W.
        assert (Hn : Buffer.OpReadChar <> Buffer.OpReadChar ->
                     Buffer.count b1 = Buffer.count b)
          by (intros Hne; exfalso; apply Hne; reflexivity).
        tauto.
      - eexists. split; [reflexivity |]. simpl. tauto. }
    destruct Step as (b1 & E1 & I1 & W1 & F1 & H1 & T1 & C1).
    destruct (IH b1 I1 W1 F1) as (b' & E' & F' & H' & T' & C').
    exists b'. simpl. rewrite E1, H', T'.
    repeat split; auto.
    intros Hall. inversion Hall as [| x xs Hx Hxs]; subst.
    rewrite C' by assumption. apply C1. exact Hx.
Qed.

Lemma Buffer_full_stays_full_witness :
  let b := Buffer.mkBuffer 3 false false
             (Buffer.mkPrivate [65; 66; 67; 0] 4 3 0) in
  exists b' : Buffer.Buffer,
    Buffer.exec b [Buffer.OpReadChar; Buffer.OpReadChar; Buffer.OpReadChar;
                   Buffer.OpWriteChar 68] = Some b' /\
    Buffer.Buffer_IsFull b' = true /\
    Buffer.head (Buffer.private b') = 3.
Proof.
  intros b.
  assert (Hb : Buffer.in_bounds b).
  { unfold Buffer.in_bounds, Buffer.UINT8_MODULUS. simpl. lia. }
  destruct (Buffer_full_stays_full
              [Buffer.OpReadChar; Buffer.OpReadChar; Buffer.OpReadChar;
               Buffer.OpWriteChar 68] b Hb eq_refl eq_refl)
    as (b' & E & F & H & _).
  exists b'. split; [exact E | split; [exact F | exact H]].
Defined.

(** What a write does when there is room. *)
Lemma Buffer_WriteChar_space (b : Buffer.Buffer) (c : Z) :
  Buffer.in_bounds b ->
  Buffer.Buffer_IsFull b = false ->
  exists b' : Buffer.Buffer,
    Buffer.Buffer_WriteChar b c = Some b' /\
    Buffer.in_bounds b' /\
    Buffer.enableOverwrite b' = Buffer.enableOverwrite b /\
    Buffer.head (Buffer.private b')
      = Buffer.CircularIncrement (Buffer.head (Buffer.private b))
                                 (Buffer.size (Buffer.private b)) /\
    Buffer.tail (Buffer.private b') = Buffer.tail (Buffer.private b) /\
    Buffer.size (Buffer.private b') = Buffer.size (Buffer.private b) /\
    Buffer.count b' = Buffer.to_u8 (Buffer.count b + 1) /\
    Buffer.overflow b' = Buffer.overflow b /\
    Buffer.load (Buffer.buffer (Buffer.private b'))
                (Buffer.head (Buffer.private b)) = Some c /\
    (forall j : Z, 0 <= j -> j <> Buffer.head (Buffer.private b) ->
       Buffer.load (Buffer.buffer (Buffer.private b')) j
         = Buffer.load (Buffer.buffer (Buffer.private b)) j).
Proof.
  intros Hb Hnf.
  assert (Hci : Buffer.CircularIncrement (Buffer.head (Buffer.private b))
                  (Buffer.size (Buffer.private b))
                <> Buffer.tail (Buffer.private b)).
  { intros E. apply (Buffer_IsFull_spec b Hb) in E. congruence. }
  destruct Hb as (Hlen & Hsz & Hh & Ht).
  destruct (CircularIncrement_in_ring _ _ Hh Hsz) as (E8 & _ & Hr).
  destruct (Buffer_store_some (Buffer.buffer (Buffer.private b))
              (Buffer.head (Buffer.private b)) c) as (a' & Es & El & Ld & Lo);
    [lia |].
  unfold Buffer.Buffer_WriteChar, Buffer.in_bounds. rewrite E8, Es.
  destruct (Z.eqb_spec
              (Buffer.CircularIncrement (Buffer.head (Buffer.private b))
                                        (Buffer.size (Buffer.private b)))
              (Buffer.tail (Buffer.private b))); [contradiction |].
  simpl. eexists. split; [reflexivity |]. simpl. rewrite El.
  repeat split; auto; lia.
Qed.

Lemma Buffer_oldest_step (c : Z) (b : Buffer.Buffer) (o : Buffer.Op) :
  Buffer_oldest c b ->
  exists b' : Buffer.Buffer,
    Buffer.apply_op b o = Some b' /\ Buffer_oldest c b'.
Proof.
  unfold Buffer_oldest. intros (Hb & Hw & Hne & Hl).
  assert (Ht0 : 0 <= Buffer.tail (Buffer.private b)) by (apply Hb).
  destruct o as [x | |]; simpl.
  - destruct (Buffer.Buffer_IsFull b) eqn:Hfull.
    + destruct (Buffer_WriteChar_full b x Hb Hw Hfull)
        as (b' & E & I & W & H & T & _ & _ & _ & _ & Lo).
      exists b'. rewrite H, T, Lo by auto. tauto.
    + destruct (Buffer_WriteChar_space b x Hb Hfull)
        as (b' & E & I & W & H & T & _ & _ & _ & _ & Lo).
      exists b'. rewrite H, T, W, Lo by auto.
      assert (Hci : Buffer.CircularIncrement (Buffer.head (Buffer.private b))
                      (Buffer.size (Buffer.private b))
                    <> Buffer.tail (Buffer.private b)).
      { intros E'. apply (Buffer_IsFull_spec b Hb) in E'. congruence. }
      tauto.
  - rewrite (Buffer_ReadChar_nonempty b c Hne Hl).
    eexists. split; [reflexivity |]. simpl. tauto.
  - eexists. split; [reflexivity |]. simpl. tauto.
Qed.

Lemma Buffer_oldest_is_read (c : Z) (ops : list Buffer.Op) :
  forall b : Buffer.Buffer,
  Buffer_oldest c b ->
  exists b2 b3 : Buffer.Buffer,
    Buffer.exec b ops = Some b2 /\
    Buffer.Buffer_ReadChar b2 = Some (c, b3).
Proof.
  induction ops as [| o ops IH]; intros b Ho.
  - exists b. destruct Ho as (_ & _ & Hne & Hl).
    eexists. split; [reflexivity |].
    apply Buffer_ReadChar_nonempty; assumption.
  - destruct (Buffer_oldest_step c b o Ho) as (b' & Eo & Ho').
    destruct (IH b' Ho') as (b2 & b3 & E2 & E3).
    exists b2, b3. simpl. rewrite Eo. split; assumption.
Qed.

(** The reader never gets past the first byte.  After a byte is written
    into an empty buffer (of size two or more, overwriting off), every
    read returns that byte, whatever has been written, read or queried
    in between: [tail] never moves and no write reaches the slot it
    points to. *)
Theorem Buffer_every_read_returns_first_byte
    (b : Buffer.Buffer) (c : Z) (ops : list Buffer.Op) :
  Buffer.in_bounds b ->
  Buffer.enableOverwrite b = false ->
  Buffer.head (Buffer.private b) = Buffer.tail (Buffer.private b) ->
  2 <= Buffer.size (Buffer.private b) ->
  exists b1 b2 b3 : Buffer.Buffer,
    Buffer.Buffer_WriteChar b c = Some b1 /\
    Buffer.exec b1 ops = Some b2 /\
    Buffer.Buffer_ReadChar b2 = Some (c, b3).
Proof.
  intros Hb Hw Hempty Hsz.
  assert (Hci : Buffer.CircularIncrement (Buffer.head (Buffer.private b))
                  (Buffer.size (Buffer.private b))
                <> Buffer.tail (Buffer.private b)).
  { destruct Hb as (_ & _ & Hh & _). rewrite <- Hempty.
    unfold Buffer.CircularIncrement.
    destruct (Z.eqb_spec (Buffer.head (Buffer.private b))
                (Buffer.size (Buffer.private b) - 1)); lia. }
  assert (Hnf : Buffer.Buffer_IsFull b = false).
  { destruct (Buffer.Buffer_IsFull b) eqn:E; [| reflexivity].
    apply (Buffer_IsFull_spec b Hb) in E. contradiction. }
  destruct (Buffer_WriteChar_space b c Hb Hnf)
    as (b1 & E1 & I1 & W1 & H1 & T1 & _ & _ & _ & L1 & _).
  assert (O1 : Buffer_oldest c b1).
  { unfold Buffer_oldest. rewrite W1, H1, T1, <- Hempty.
    rewrite <- Hempty in Hci. tauto. }
  destruct (Buffer_oldest_is_read c ops b1 O1) as (b2 & b3 & E2 & E3).
  exists b1, b2, b3. tauto.
Qed.

Lemma Buffer_every_read_returns_first_byte_witness :
  let b := Buffer.Buffer_Init
             (Buffer.mkBuffer 0 false false (Buffer.mkPrivate [] 0 0 0))
             [0; 0; 0; 0] 4 in
  exists b1 b2 b3 : Buffer.Buffer,
    Buffer.Buffer_WriteChar b 65 = Some b1 /\
    Buffer.exec b1 [Buffer.OpWriteChar 66; Buffer.OpReadChar;
                    Buffer.OpWriteChar 67] = Some b2 /\
    Buffer.Buffer_ReadChar b2 = Some (65, b3).
Proof.
  intros b.
  assert (Hb : Buffer.in_bounds b).
  { unfold Buffer.in_bounds, Buffer.UINT8_MODULUS. simpl. lia. }
  apply (Buffer_every_read_returns_first_byte b 65
           [Buffer.OpWriteChar 66; Buffer.OpReadChar; Buffer.OpWriteChar 67]
           Hb eq_refl eq_refl).
  simpl. lia.
Defined.

(** Going [m] steps round a ring of [n] slots, [0 < m < n], does not come
    back to the start; going [n] steps does. *)
Lemma ring_shift_ne (t m n : Z) :
  0 <= t < n -> 0 < m < n -> (t + m) mod n <> t.
Proof.
  intros Ht Hm.
  destruct (Z_lt_le_dec (t + m) n) as [Hlt | Hge].
  - rewrite Z.mod_small by lia. lia.
  - replace (t + m) with ((t + m - n) + 1 * n) by lia.
    rewrite Z_mod_plus_full, Z.mod_small by lia. lia.
Qed.

Lemma ring_shift_full (t n : Z) :
  0 <= t < n -> (t + n) mod n = t.
Proof.
  intros Ht. replace (t + n) with (t + 1 * n) by lia.
  rewrite Z_mod_plus_full. apply Z.mod_small. exact Ht.
Qed.

Lemma Buffer_fill (chars : list Z) : forall (b : Buffer.Buffer) (j : Z),
  Buffer.in_bounds b ->
  Buffer.u8 (Buffer.count b) ->
  0 <= j ->
  Buffer.head (Buffer.private b)
    = (Buffer.tail (Buffer.private b) + j) mod Buffer.size (Buffer.private b) ->
  j + Z.of_nat (length chars) <= Buffer.size (Buffer.private b) - 1 ->
  exists b' : Buffer.Buffer,
    Buffer.exec b (Buffer.writes chars) = Some b' /\
    Buffer.in_bounds b' /\
    Buffer.head (Buffer.private b')
      = (Buffer.tail (Buffer.private b) + (j + Z.of_nat (length chars)))
          mod Buffer.size (Buffer.private b) /\
    Buffer.tail (Buffer.private b') = Buffer.tail (Buffer.private b) /\
    Buffer.size (Buffer.private b') = Buffer.size (Buffer.private b) /\
    Buffer.count b'
      = Buffer.to_u8 (Buffer.count b + Z.of_nat (length chars)) /\
    Buffer.overflow b' = Buffer.overflow b.
Proof.
  induction chars as [| c chars IH]; intros b j Hb Hc Hj Hh Hlen.
  - exists b. simpl. rewrite !Z.add_0_r.
    unfold Buffer.to_u8.
    rewrite (Z.mod_small (Buffer.count b)) by exact Hc. tauto.
  - simpl length in *. rewrite Nat2Z.inj_succ in *.
    pose proof Hb as (Hl & Hsz & Hhd & Htl).
    destruct (CircularIncrement_in_ring _ _ Hhd Hsz) as (_ & Hmod & _).
    assert (Hnext : Buffer.CircularIncrement (Buffer.head (Buffer.private b))
                      (Buffer.size (Buffer.private b))
                    = (Buffer.tail (Buffer.private b) + (j + 1))
                        mod Buffer.size (Buffer.private b)).
    { rewrite Hmod, Hh, Zplus_mod_idemp_l. f_equal. lia. }
    assert (Hnf : Buffer.Buffer_IsFull b = false).
    { destruct (Buffer.Buffer_IsFull b) eqn:E; [| reflexivity].
      apply (Buffer_IsFull_spec b Hb) in E. rewrite Hnext in E.
      apply ring_shift_ne in E; [contradiction | lia | lia]. }
    destruct (Buffer_WriteChar_space b c Hb Hnf)
      as (b1 & E1 & I1 & _ & H1 & T1 & S1 & C1 & O1 & _).
    destruct (IH b1 (j + 1)) as (b' & E' & I' & H' & T' & S' & C' & O');
      [exact I1
      | rewrite C1; unfold Buffer.to_u8, Buffer.u8;
        apply Z.mod_pos_bound; reflexivity
      | lia
      | rewrite H1, T1, S1; exact Hnext
      | rewrite S1; lia |].
    exists b'. simpl. rewrite E1.
    rewrite T1, S1 in H'. rewrite C1 in C'.
    split; [exact E' | split; [exact I' | split]].
    + rewrite H'. f_equal. lia.
    + split; [congruence | split; [congruence | split; [| congruence]]].
      rewrite C'. unfold Buffer.to_u8. rewrite Zplus_mod_idemp_l.
      f_equal. lia.
Qed.

(** Capacity.  A ring over [n] slots takes [n - 1] bytes: written into an
    empty buffer ([head = tail]), any [k <= n - 1] bytes are all accepted,
    the count goes up by [k], the overflow flag is not touched, and the
    buffer is full afterwards exactly when [k = n - 1]. *)
Theorem Buffer_capacity (b : Buffer.Buffer) (chars : list Z) :
  Buffer.in_bounds b ->
  Buffer.u8 (Buffer.count b) ->
  Buffer.head (Buffer.private b) = Buffer.tail (Buffer.private b) ->
  Z.of_nat (length chars) <= Buffer.size (Buffer.private b) - 1 ->
  exists b' : Buffer.Buffer,
    Buffer.exec b (Buffer.writes chars) = Some b' /\
    Buffer.Buffer_GetCount b'
      = Buffer.to_u8 (Buffer.count b + Z.of_nat (length chars)) /\
    Buffer.overflow b' = Buffer.overflow b /\
    Buffer.tail (Buffer.private b') = Buffer.tail (Buffer.private b) /\
    (Buffer.Buffer_IsFull b' = true <->
     Z.of_nat (length chars) = Buffer.size (Buffer.private b) - 1).
Proof.
  intros Hb Hc Hempty Hlen.
  pose proof Hb as (_ & Hsz & Hhd & Htl).
  destruct (Buffer_fill chars b 0 Hb Hc) as (b' & E & I & H & T & S & C & O);
    [lia | rewrite Z.add_0_r, Z.mod_small by lia; exact Hempty | lia |].
  exists b'. split; [exact E | split; [exact C | split; [exact O |]]].
  split; [exact T |].
  rewrite (Buffer_IsFull_spec b' I), T, S.
  pose proof I as (_ & Hsz' & Hhd' & _). rewrite S in Hsz', Hhd'.
  destruct (CircularIncrement_in_ring _ _ Hhd' Hsz') as (_ & Hmod & _).
  rewrite Hmod, H, Zplus_mod_idemp_l, Z.add_0_l.
  split.
  - intros Hfull.
    destruct (Z.eq_dec (Z.of_nat (length chars))
                (Buffer.size (Buffer.private b) - 1)) as [Heq | Hne];
      [exact Heq |].
    exfalso. revert Hfull.
    replace (Buffer.tail (Buffer.private b) + Z.of_nat (length chars) + 1)
      with (Buffer.tail (Buffer.private b) + (Z.of_nat (length chars) + 1))
      by lia.
    apply ring_shift_ne; lia.
  - intros Heq.
    replace (Buffer.tail (Buffer.private b) + Z.of_nat (length chars) + 1)
      with (Buffer.tail (Buffer.private b) + Buffer.size (Buffer.private b))
      by lia.
    apply ring_shift_full. exact Htl.
Qed.

Lemma Buffer_capacity_witness :
  let b := Buffer.Buffer_Init
             (Buffer.mkBuffer 0 false false (Buffer.mkPrivate [] 0 0 0))
             [0; 0; 0; 0] 4 in
  exists b' : Buffer.Buffer,
    Buffer.exec b (Buffer.writes [65; 66; 67]) = Some b' /\
    Buffer.Buffer_GetCount b' = 3 /\
    Buffer.Buffer_IsFull b' = true.
Proof.
  intros b.
  assert (Hb : Buffer.in_bounds b).
  { unfold Buffer.in_bounds, Buffer.UINT8_MODULUS. simpl. lia. }
  assert (Hc : Buffer.u8 (Buffer.count b)).
  { unfold Buffer.u8, Buffer.UINT8_MODULUS. simpl. lia. }
  destruct (Buffer_capacity b [65; 66; 67] Hb Hc eq_refl)
    as (b' & E & C & _ & _ & F); [simpl; lia |].
  exists b'. split; [exact E | split; [exact C | apply F; reflexivity]].
Defined.

(** Overflow is reported once.  With overwriting off, a write to a full
    buffer sets the overflow flag and leaves the indices and the count as
    they are; [Buffer_DidOverflow] then returns true and clears the flag, so
    asking again returns false; a read of a buffer that holds data clears
    the flag as well, although it makes no room. *)
Theorem Buffer_overflow_reported_once (b : Buffer.Buffer) (c : Z) :
  Buffer.in_bounds b ->
  Buffer.enableOverwrite b = false ->
  Buffer.Buffer_IsFull b = true ->
  exists b1 : Buffer.Buffer,
    Buffer.Buffer_WriteChar b c = Some b1 /\
    Buffer.Buffer_GetCount b1 = Buffer.Buffer_GetCount b /\
    fst (Buffer.Buffer_DidOverflow b1) = true /\
    fst (Buffer.Buffer_DidOverflow (snd (Buffer.Buffer_DidOverflow b1)))
      = false /\
    Buffer.private (snd (Buffer.Buffer_DidOverflow b1)) = Buffer.private b1 /\
    (Buffer.head (Buffer.private b) <> Buffer.tail (Buffer.private b) ->
     exists (d : Z) (b2 : Buffer.Buffer),
       Buffer.Buffer_ReadChar b1 = Some (d, b2) /\
       fst (Buffer.Buffer_DidOverflow b2) = false /\
       Buffer.Buffer_IsFull b2 = true).
Proof.
  intros Hb Hw Hfull.
  destruct (Buffer_WriteChar_full b c Hb Hw Hfull)
    as (b1 & E & I & W & H & T & S & C & O & _).
  exists b1. split; [exact E | split; [exact C | split; [exact O |]]].
  split; [reflexivity | split; [reflexivity |]].
  intros Hne.
  pose proof I as (Hl & Hsz & Hhd & Htl).
  destruct (Buffer_load_some (Buffer.buffer (Buffer.private b1))
              (Buffer.tail (Buffer.private b1))) as [d Ed]; [lia |].
  exists d. eexists.
  split; [apply Buffer_ReadChar_nonempty; [congruence | exact Ed] |].
  split; [reflexivity |].
  rewrite <- Hfull. apply Buffer_IsFull_private; simpl; assumption.
Qed.

Lemma Buffer_overflow_reported_once_witness :
  let b := Buffer.mkBuffer 3 false false
             (Buffer.mkPrivate [65; 66; 67; 0] 4 3 0) in
  exists b1 : Buffer.Buffer,
    Buffer.Buffer_WriteChar b 68 = Some b1 /\
    fst (Buffer.Buffer_DidOverflow b1) = true /\
    fst (Buffer.Buffer_DidOverflow (snd (Buffer.Buffer_DidOverflow b1)))
      = false.
Proof.
  intros b.
  assert (Hb : Buffer.in_bounds b).
  { unfold Buffer.in_bounds, Buffer.UINT8_MODULUS. simpl. lia. }
  destruct (Buffer_overflow_reported_once b 68 Hb eq_refl eq_refl)
    as (b1 & E & _ & O1 & O2 & _).
  exists b1. split; [exact E | split; [exact O1 | exact O2]].
Defined.
